(** * dosxvpn: the deployment orchestrator of [deploy/deploy.go]

    A shallow embedding of package [deploy]: the [Deployment] record, its
    constructor [New], the lifecycle [Run], and the helpers
    [getAndSaveConfigFiles], [randomString], [saveConfig], [getPublicIp],
    [waitForPort], [waitForSSH] and [userHomeDir].

    The package talks to the outside world all the time (cloud API, ssh,
    TCP, HTTP, the local file system, the clock).  Every such call is
    answered by an oracle of the environment [Env]; the calls made so far
    are kept, in order, in the trace of the [World].  An oracle that may be
    asked several times during one run is indexed by the number of earlier
    calls of its kind, so that a scripted backend ("fails twice, then
    succeeds") is just a function on [nat].

    Logging through [log.Println]/[log.Printf] does not influence control
    flow and is left out; [log.Fatal] ends the process and is modelled. *)

From Stdlib Require Import ZArith Lia.
From stdpp Require Import base strings gmap list pretty finite.

Local Open Scope Z_scope.
Local Open Scope string_scope.
Local Open Scope list_scope.

(** ** Go values *)

(** A Go [error] is represented by its message; [nil] is [None]. *)
Definition error : Type := string.

(** A [time.Duration] counts nanoseconds. *)
Definition Second : Z := 1000000000.

(** What [http.Get] followed by [ioutil.ReadAll(resp.Body)] can give. *)
Inductive HttpResult : Type :=
| HttpGetFails (e : error)
| HttpReadFails (e : error)
| HttpBody (body : string).

(** ** The environment *)

Record Env : Type := {
  (* runtime, os, path/filepath, bytes *)
  GOOS : string;
  Getenv : string -> string;
  filepath_Join : string -> string -> string;
  bytes_TrimSpace : string -> string;
  (* time and math/rand: the reading of the n-th call of time.Now, and the
     value rand.Int() gives right after rand.Seed(seed) *)
  time_Now_UnixNano : nat -> Z;
  rand_Int_seeded : Z -> Z;
  (* net/http and net, by call number *)
  http_Get : nat -> string -> HttpResult;
  net_Dial : nat -> string -> string -> option error;
  (* io/ioutil.WriteFile, by call number and path *)
  ioutil_WriteFile : nat -> string -> option error;
  (* sshclient *)
  sshclient_New : nat -> string * option error;
  sshclient_Run : string -> string -> string -> string -> string * option error;
  sshclient_GetFileFromContainer :
    string -> string -> string -> string -> string -> string * option error;
  (* services *)
  services_GenerateCloudConfig : string -> list string -> string * option error;
  (* doclient *)
  doclient_CreateDroplet :
    string -> string -> string -> string -> string -> string -> Z * option error;
  doclient_WaitForDropletIP : string -> Z -> string * option error;
  doclient_CreateFirewall : string -> string -> Z -> option error;
  (* genconfig *)
  genconfig_GenerateAppleConfig :
    string -> string -> string -> string -> string -> string -> string * option error;
  genconfig_GenerateAndroidConfig :
    string -> string -> string -> string -> string * option error;
  (* vpn *)
  vpn_OSXAddVPN : string -> option error
}.

(** ** The world: the file system and the calls made so far *)

Inductive Event : Type :=
| EvNow
| EvSshNew
| EvHttpGet (url : string)
| EvDial (network address : string)
| EvConnClose (address : string)
| EvSleep (d : Z)
| EvMkdirAll (dir : string)
| EvWriteFile (path content : string)
| EvCreateDroplet (name region size userData image : string)
| EvWaitForDropletIP (id : Z)
| EvCreateFirewall (name : string) (id : Z)
| EvSshRun (user host cmd : string)
| EvGetFile (user host container path : string)
| EvOSXAddVPN (path : string)
| EvStatus (status : string).

Record World : Type := mkWorld {
  fs : gmap string string;
  trace : list Event
}.

Definition is_now (e : Event) : bool :=
  match e with EvNow => true | _ => false end.
Definition is_sshnew (e : Event) : bool :=
  match e with EvSshNew => true | _ => false end.
Definition is_httpget (e : Event) : bool :=
  match e with EvHttpGet _ => true | _ => false end.
Definition is_dial (e : Event) : bool :=
  match e with EvDial _ _ => true | _ => false end.
Definition is_close (e : Event) : bool :=
  match e with EvConnClose _ => true | _ => false end.
Definition is_write (e : Event) : bool :=
  match e with EvWriteFile _ _ => true | _ => false end.
Definition is_osxaddvpn (e : Event) : bool :=
  match e with EvOSXAddVPN _ => true | _ => false end.
Definition is_getfile (e : Event) : bool :=
  match e with EvGetFile _ _ _ _ => true | _ => false end.

(** Number of events of one kind in a trace. *)
Definition count (p : Event -> bool) (t : list Event) : nat :=
  length (List.filter p t).

(** The values assigned to [d.Status], in order. *)
Fixpoint statuses (t : list Event) : list string :=
  match t with
  | [] => []
  | EvStatus s :: t' => s :: statuses t'
  | _ :: t' => statuses t'
  end.

(** ** A monad for state, early [return], [log.Fatal] and panics *)

Inductive Res (A : Type) : Type :=
| Val (a : A)
| Return (err : option error)     (* a [return err] of the enclosing func *)
| Fatal (msg : error)             (* [log.Fatal]: the process exits *)
| Panic (msg : string).
Arguments Val {A} a.
Arguments Return {A} err.
Arguments Fatal {A} msg.
Arguments Panic {A} msg.

Definition M (S A : Type) : Type := S -> Res A * S.

Definition ret {S A} (a : A) : M S A := fun s => (Val a, s).

Definition bind {S A B} (m : M S A) (k : A -> M S B) : M S B :=
  fun s =>
    match m s with
    | (Val a, s') => k a s'
    | (Return err, s') => (Return err, s')
    | (Fatal msg, s') => (Fatal msg, s')
    | (Panic msg, s') => (Panic msg, s')
    end.

Declare Scope go_scope.
Delimit Scope go_scope with go.
Notation "x <- m ;; k" := (bind m (fun x => k))
  (at level 100, m at next level, right associativity) : go_scope.
Notation "'let2' ( x , y ) <- m ;; k" :=
  (bind m (fun xy => let '(x, y) := xy in k))
  (at level 100, x name, y name, m at next level, right associativity) : go_scope.
Notation "m ;; k" := (bind m (fun _ => k))
  (at level 100, right associativity) : go_scope.
Local Open Scope go_scope.

Definition return_ {S A} (err : option error) : M S A := fun s => (Return err, s).
Definition log_Fatal {S A} (msg : error) : M S A := fun s => (Fatal msg, s).
Definition panic {S A} (msg : string) : M S A := fun s => (Panic msg, s).

(** [if err != nil { log.Fatal(err) }] *)
Definition fatal_if_err {S} (err : option error) : M S unit :=
  match err with Some e => log_Fatal e | None => ret tt end.

(** [if err != nil { return err }] *)
Definition return_if_err {S} (err : option error) : M S unit :=
  match err with Some e => return_ (Some e) | None => ret tt end.

(** How a call of a func of result type [error] ends. *)
Inductive Outcome : Type :=
| Returned (err : option error)
| Exited (msg : error)
| Panicked (msg : string).

Definition call {S} (body : M S (option error)) (s : S) : Outcome * S :=
  match body s with
  | (Val err, s') => (Returned err, s')
  | (Return err, s') => (Returned err, s')
  | (Fatal msg, s') => (Exited msg, s')
  | (Panic msg, s') => (Panicked msg, s')
  end.

Definition emit (e : Event) : M World unit :=
  fun w => (Val tt, mkWorld (fs w) (trace w ++ [e])).

Definition calls (p : Event -> bool) : M World nat :=
  fun w => (Val (count p (trace w)), w).

(** ** The [Deployment] struct *)

Record Deployment : Type := mkDeployment {
  Region : string;
  AutoConfigure : bool;
  Name : string;
  Token : string;
  services : list string;        (* the configured services, by name *)
  userData : string;
  dropletIP : string;
  dropletID : Z;
  doClient : string;             (* the API client, by the token it holds *)
  sshClient : string;            (* the ssh client, by its authorized key *)
  VpnPassword : string;
  Status : string;
  VPNIPAddress : string;
  InitialPublicIP : string;
  FinalPublicIP : string
}.

Definition set_userData (v : string) (d : Deployment) : Deployment :=
  mkDeployment (Region d) (AutoConfigure d) (Name d) (Token d) (services d)
    v (dropletIP d) (dropletID d) (doClient d) (sshClient d)
    (VpnPassword d) (Status d) (VPNIPAddress d) (InitialPublicIP d) (FinalPublicIP d).
Definition set_dropletIP (v : string) (d : Deployment) : Deployment :=
  mkDeployment (Region d) (AutoConfigure d) (Name d) (Token d) (services d)
    (userData d) v (dropletID d) (doClient d) (sshClient d)
    (VpnPassword d) (Status d) (VPNIPAddress d) (InitialPublicIP d) (FinalPublicIP d).
Definition set_dropletID (v : Z) (d : Deployment) : Deployment :=
  mkDeployment (Region d) (AutoConfigure d) (Name d) (Token d) (services d)
    (userData d) (dropletIP d) v (doClient d) (sshClient d)
    (VpnPassword d) (Status d) (VPNIPAddress d) (InitialPublicIP d) (FinalPublicIP d).
Definition set_sshClient (v : string) (d : Deployment) : Deployment :=
  mkDeployment (Region d) (AutoConfigure d) (Name d) (Token d) (services d)
    (userData d) (dropletIP d) (dropletID d) (doClient d) v
    (VpnPassword d) (Status d) (VPNIPAddress d) (InitialPublicIP d) (FinalPublicIP d).
Definition set_VpnPassword (v : string) (d : Deployment) : Deployment :=
  mkDeployment (Region d) (AutoConfigure d) (Name d) (Token d) (services d)
    (userData d) (dropletIP d) (dropletID d) (doClient d) (sshClient d)
    v (Status d) (VPNIPAddress d) (InitialPublicIP d) (FinalPublicIP d).
Definition set_Status (v : string) (d : Deployment) : Deployment :=
  mkDeployment (Region d) (AutoConfigure d) (Name d) (Token d) (services d)
    (userData d) (dropletIP d) (dropletID d) (doClient d) (sshClient d)
    (VpnPassword d) v (VPNIPAddress d) (InitialPublicIP d) (FinalPublicIP d).
Definition set_VPNIPAddress (v : string) (d : Deployment) : Deployment :=
  mkDeployment (Region d) (AutoConfigure d) (Name d) (Token d) (services d)
    (userData d) (dropletIP d) (dropletID d) (doClient d) (sshClient d)
    (VpnPassword d) (Status d) v (InitialPublicIP d) (FinalPublicIP d).
Definition set_InitialPublicIP (v : string) (d : Deployment) : Deployment :=
  mkDeployment (Region d) (AutoConfigure d) (Name d) (Token d) (services d)
    (userData d) (dropletIP d) (dropletID d) (doClient d) (sshClient d)
    (VpnPassword d) (Status d) (VPNIPAddress d) v (FinalPublicIP d).
Definition set_FinalPublicIP (v : string) (d : Deployment) : Deployment :=
  mkDeployment (Region d) (AutoConfigure d) (Name d) (Token d) (services d)
    (userData d) (dropletIP d) (dropletID d) (doClient d) (sshClient d)
    (VpnPassword d) (Status d) (VPNIPAddress d) (InitialPublicIP d) v.

(** A running process: the [Deployment] behind the receiver pointer, which
    any holder of the pointer can read at any time, and the world. *)
Record Proc : Type := mkProc {
  self : Deployment;
  world : World
}.

Definition io {A} (m : M World A) : M Proc A :=
  fun p => let (r, w) := m (world p) in (r, mkProc (self p) w).

Definition this : M Proc Deployment := fun p => (Val (self p), p).

Definition assign (f : Deployment -> Deployment) : M Proc unit :=
  fun p => (Val tt, mkProc (f (self p)) (world p)).

(** [d.Status = s]; the assignment is also noted in the trace, so that the
    sequence of values an observer can see is recoverable by [statuses]. *)
Definition assign_Status (s : string) : M Proc unit :=
  assign (set_Status s) ;; io (emit (EvStatus s)).

(** The return statement through which [waitForPort] is left. *)
Inductive WaitExit : Type :=
| ExitConnErr (e : error)      (* [return err] in the [else if] arm *)
| ExitConnected                (* [return nil] after [conn.Close()] *)
| ExitTimeout.                 (* [return fmt.Errorf(...)] after the loop *)

Definition is_nil (err : option error) : bool :=
  match err with None => true | Some _ => false end.

(** [s[:n]] on a string *)
Definition slice_to {S} (s : string) (n : Z) : M S string :=
  if Z.leb 0 n && Z.leb n (Z.of_nat (String.length s))
  then ret (String.substring 0 (Z.to_nat n) s)
  else panic "slice bounds out of range".

(** The remote command [Run] blocks on until the VPN container logs. *)
Definition wait_for_vpn : string :=
  "until docker logs dosxvpn &>/dev/null; do sleep 2; done; sleep 5;".

(** The remote paths of the files [Run] retrieves. *)
Definition remote_password : string := "/etc/ipsec.d/client.cert.p12.password".
Definition remote_private_key : string := "/etc/ipsec.d/client.cert.p12".
Definition remote_ca_cert : string := "/etc/ipsec.d/cacerts/ca.cert.pem".
Definition remote_server_cert : string := "/etc/ipsec.d/certs/server.cert.pem".

(** The endpoint asked by [getPublicIp]. *)
Definition checkip : string := "http://checkip.amazonaws.com/".

Section Deploy.

Variable E : Env.

(** *** The calls into other packages *)

Definition time_Now : M World Z :=
  k <- calls is_now ;; emit EvNow ;; ret (time_Now_UnixNano E k).

Definition time_Sleep (d : Z) : M World unit := emit (EvSleep d).

Definition http_Get_ReadAll (url : string) : M World HttpResult :=
  k <- calls is_httpget ;; emit (EvHttpGet url) ;; ret (http_Get E k url).

Definition Dial (network address : string) : M World (option error) :=
  k <- calls is_dial ;; emit (EvDial network address) ;;
  ret (net_Dial E k network address).

Definition conn_Close (address : string) : M World unit :=
  emit (EvConnClose address).

Definition os_MkdirAll (dir : string) : M World unit := emit (EvMkdirAll dir).

(** A write that fails leaves the file system as it was. *)
Definition WriteFile (path content : string) : M World (option error) :=
  k <- calls is_write ;; emit (EvWriteFile path content) ;;
  match ioutil_WriteFile E k path with
  | Some e => ret (Some e)
  | None => fun w => (Val None, mkWorld (<[path := content]> (fs w)) (trace w))
  end.

Definition sshNew : M World (string * option error) :=
  k <- calls is_sshnew ;; emit EvSshNew ;; ret (sshclient_New E k).

Definition sshRun (c user host cmd : string) : M World (string * option error) :=
  emit (EvSshRun user host cmd) ;; ret (sshclient_Run E c user host cmd).

Definition GetFileFromContainer (c user host container path : string)
  : M World (string * option error) :=
  emit (EvGetFile user host container path) ;;
  ret (sshclient_GetFileFromContainer E c user host container path).

Definition CreateDroplet (c name region size userData image : string)
  : M World (Z * option error) :=
  emit (EvCreateDroplet name region size userData image) ;;
  ret (doclient_CreateDroplet E c name region size userData image).

Definition WaitForDropletIP (c : string) (id : Z) : M World (string * option error) :=
  emit (EvWaitForDropletIP id) ;; ret (doclient_WaitForDropletIP E c id).

Definition CreateFirewall (c name : string) (id : Z) : M World (option error) :=
  emit (EvCreateFirewall name id) ;; ret (doclient_CreateFirewall E c name id).

Definition OSXAddVPN (path : string) : M World (option error) :=
  emit (EvOSXAddVPN path) ;; ret (vpn_OSXAddVPN E path).

(** *** Package-level constants and variables *)

Definition DropletBaseName : string := "dosxvpn".
Definition DropletImage : string := "coreos-beta".
Definition DropletSize : string := "512mb".

Definition userHomeDir : string :=
  if String.eqb (GOOS E) "windows" then
    let home := Getenv E "HOMEDRIVE" +:+ Getenv E "HOMEPATH" in
    if String.eqb home "" then Getenv E "USERPROFILE" else home
  else Getenv E "HOME".

Definition FilepathDosxvpnConfigDir : string :=
  filepath_Join E userHomeDir ".dosxvpn".

(** The file name templates, applied: [fmt.Sprintf("%s.suffix", name)]. *)
Definition FilenameAppleConfig (name : string) : string := name +:+ ".apple.mobileconfig".
Definition FilenameAndroidConfig (name : string) : string := name +:+ ".android.sswan".
Definition FilenamePrivateKey (name : string) : string := name +:+ ".client.cert.p12".
Definition FilenameCACert (name : string) : string := name +:+ ".ca.cert.pem".
Definition FilenameServerCert (name : string) : string := name +:+ ".server.cert.pem".

Definition config_path (template : string -> string) (name : string) : string :=
  filepath_Join E FilepathDosxvpnConfigDir (template name).

(** *** [randomString] and [New] *)

Definition randomString (n : Z) : M World string :=
  seed <- time_Now ;;
  slice_to (pretty (rand_Int_seeded E seed)) n.

Definition New (token region : string) (autoConfigure : bool)
  : M World (option Deployment * option error) :=
  rs <- randomString 3 ;;
  let deploy :=
    {| Name := DropletBaseName +:+ "-" +:+ rs +:+ "-" +:+ region;
       Token := token;
       Region := region;
       AutoConfigure := autoConfigure;
       doClient := token;
       services := ["coreos"; "dosxvpn"; "pihole"];
       Status := "pending auth";
       userData := ""; dropletIP := ""; dropletID := 0; sshClient := "";
       VpnPassword := ""; VPNIPAddress := ""; InitialPublicIP := "";
       FinalPublicIP := "" |} in
  let2 (client, err) <- sshNew ;;
  let deploy := set_sshClient client deploy in
  match err with
  | Some e => ret (None, Some e)
  | None =>
      let (data, err) :=
        services_GenerateCloudConfig E (sshClient deploy) (services deploy) in
      let deploy := set_userData data deploy in
      match err with
      | Some e => ret (None, Some e)
      | None => ret (Some deploy, None)
      end
  end.

(** *** [saveConfig], [getPublicIp], [waitForPort], [waitForSSH] *)

Definition saveConfig (configFileString saveFile : string)
  : M World (string * option error) :=
  os_MkdirAll FilepathDosxvpnConfigDir ;;
  err <- WriteFile saveFile configFileString ;;
  match err with
  | Some e => ret ("", Some e)
  | None => ret (saveFile, None)
  end.

Definition getPublicIp : M World (string * option error) :=
  r <- http_Get_ReadAll checkip ;;
  match r with
  | HttpGetFails e => ret ("", Some e)
  | HttpReadFails e => ret ("", Some e)
  | HttpBody buf => ret (bytes_TrimSpace E buf, None)
  end.

(** [fmt.Sprintf("%s:%d", host, port)] *)
Definition host_port (host : string) (port : Z) : string :=
  host +:+ ":" +:+ pretty port.

Definition timed_out (port : Z) : error :=
  "timed out waiting for port " +:+ pretty port +:+ " to open".

(** The [for] loop of [waitForPort] with [remaining] iterations to go
    (the loop variable [attempt] is [15 - remaining]); the result says
    through which [return] the function is left. *)
Fixpoint waitForPort_loop (remaining : nat) (host : string) (port : Z)
  : M World WaitExit :=
  match remaining with
  | O => ret ExitTimeout
  | S r =>
      err <- Dial "tcp" (host_port host port) ;;
      match err with
      | Some _ =>
          time_Sleep (5 * Second) ;;
          waitForPort_loop r host port
      | None =>
          match err with
          | Some e => ret (ExitConnErr e)
          | None =>
              conn_Close (host_port host port) ;;
              ret ExitConnected
          end
      end
  end.

Definition exit_error (port : Z) (x : WaitExit) : option error :=
  match x with
  | ExitConnErr e => Some e
  | ExitConnected => None
  | ExitTimeout => Some (timed_out port)
  end.

Definition waitForPort (host : string) (port : Z) : M World (option error) :=
  x <- waitForPort_loop 15 host port ;; ret (exit_error port x).

Definition waitForSSH (ip : string) : M World (option error) :=
  waitForPort ip 22.

(** *** [Run] *)

(** The convergence loop at the end of [Run], with [remaining] iterations
    to go (the loop variable [j] is [10 - remaining]). *)
Fixpoint convergence_loop (remaining : nat) (initialPublicIP : string)
  : M Proc unit :=
  match remaining with
  | O => ret tt
  | S r =>
      io (time_Sleep (Second * 5)) ;;
      let2 (newIP, err) <- io getPublicIp ;;
      if is_nil err && negb (String.eqb newIP "")
         && negb (String.eqb newIP initialPublicIP)
      then
        let2 (newIP, _err) <- io getPublicIp ;;
        assign (set_FinalPublicIP newIP) ;;
        ret tt                                            (* break *)
      else convergence_loop r initialPublicIP
  end.

Definition Run_body : M Proc (option error) :=
  let2 (initialPublicIP, _err) <- io getPublicIp ;;
  assign (set_InitialPublicIP initialPublicIP) ;;

  d <- this ;;
  let2 (dropletID', err) <-
    io (CreateDroplet (doClient d) (Name d) (Region d) DropletSize
          (userData d) DropletImage) ;;
  fatal_if_err err ;;
  assign (set_dropletID dropletID') ;;

  d <- this ;;
  let2 (dropletIP', err) <- io (WaitForDropletIP (doClient d) (dropletID d)) ;;
  fatal_if_err err ;;
  assign (set_dropletIP dropletIP') ;;
  assign (fun d => set_VPNIPAddress (dropletIP d) d) ;;

  d <- this ;;
  err <- io (CreateFirewall (doClient d) (Name d) (dropletID d)) ;;
  fatal_if_err err ;;

  assign_Status "waiting for ssh" ;;
  d <- this ;;
  err <- io (waitForSSH (dropletIP d)) ;;
  fatal_if_err err ;;

  let2 (_out, err) <-
    io (sshRun (sshClient d) "core" (dropletIP d) wait_for_vpn) ;;
  fatal_if_err err ;;

  let2 (privateKeyPasswordString, err) <-
    io (GetFileFromContainer (sshClient d) "core" (dropletIP d) "dosxvpn"
          remote_password) ;;
  return_if_err err ;;
  assign (set_VpnPassword privateKeyPasswordString) ;;

  let2 (privateKeyString, err) <-
    io (GetFileFromContainer (sshClient d) "core" (dropletIP d) "dosxvpn"
          remote_private_key) ;;
  return_if_err err ;;
  io (saveConfig privateKeyString (config_path FilenamePrivateKey (Name d))) ;;

  let2 (caCertString, err) <-
    io (GetFileFromContainer (sshClient d) "core" (dropletIP d) "dosxvpn"
          remote_ca_cert) ;;
  return_if_err err ;;
  io (saveConfig caCertString (config_path FilenameCACert (Name d))) ;;

  let2 (serverCertString, err) <-
    io (GetFileFromContainer (sshClient d) "core" (dropletIP d) "dosxvpn"
          remote_server_cert) ;;
  return_if_err err ;;
  io (saveConfig serverCertString (config_path FilenameServerCert (Name d))) ;;

  let (appleConfigString, err) :=
    genconfig_GenerateAppleConfig E (dropletIP d) (Name d)
      privateKeyPasswordString privateKeyString caCertString serverCertString in
  return_if_err err ;;
  io (saveConfig appleConfigString (config_path FilenameAppleConfig (Name d))) ;;

  let (androidConfigString, err) :=
    genconfig_GenerateAndroidConfig E (dropletIP d) (Name d)
      privateKeyString caCertString in
  return_if_err err ;;
  io (saveConfig androidConfigString (config_path FilenameAndroidConfig (Name d))) ;;

  (if AutoConfigure d then
     assign_Status "adding vpn to osx" ;;
     _err <- io (OSXAddVPN (config_path FilenameAppleConfig (Name d))) ;;
     assign_Status "waiting for ip address change" ;;
     convergence_loop 10 initialPublicIP ;;
     assign_Status "done"
   else ret tt) ;;

  ret None.

(** *** [getAndSaveConfigFiles]

    The method ranges over the map [VpnFiles]; Go leaves the order of that
    iteration open, so the entries come as a list [order], some
    permutation of [VpnFiles].  [Run] does not call this method. *)

Definition VpnFiles : list (string * (string -> string)) :=
  [(remote_private_key, FilenamePrivateKey);
   (remote_ca_cert, FilenameCACert);
   (remote_server_cert, FilenameServerCert)].

Fixpoint getAndSaveConfigFiles
    (order : list (string * (string -> string))) (ip name : string)
  : M Proc (option error) :=
  match order with
  | [] => ret None
  | (remoteFile, localFile) :: rest =>
      d <- this ;;
      let2 (fileString, err) <-
        io (GetFileFromContainer (sshClient d) "core" ip "dosxvpn" remoteFile) ;;
      return_if_err err ;;
      io (saveConfig fileString (config_path localFile name)) ;;
      getAndSaveConfigFiles rest ip name
  end.

(** One call [d.Run()] in a process whose receiver holds [d]. *)
Definition Run (d : Deployment) (w : World) : Outcome * Proc :=
  call Run_body (mkProc d w).

End Deploy.

(** ** Scripted environments

    Concrete instances of [Env], used to run the functions above on
    explicit inputs: a Unix-like host whose collaborators all answer, with
    the public-IP endpoint, the TCP backend, the local writes and the
    remote files scripted by the four parameters of [env]. *)

Module Scenario.

(** [bytes.TrimSpace] on ASCII input: the white space of Go's [asciiSpace]
    table is cut from both ends. *)
Definition ascii_space (c : Ascii.ascii) : bool :=
  let n := Ascii.N_of_ascii c in
  ((9 <=? n)%N && (n <=? 13)%N) || (n =? 32)%N.

Fixpoint trim_left (s : string) : string :=
  match s with
  | String c s' => if ascii_space c then trim_left s' else s
  | EmptyString => EmptyString
  end.

Definition TrimSpace (s : string) : string :=
  String.rev (trim_left (String.rev (trim_left s))).

(** [filepath.Join] of a clean directory and a plain file name on Unix. *)
Definition Join (dir file : string) : string := dir +:+ "/" +:+ file.

(** A stand-in for the generator behind [rand.Seed]/[rand.Int]. *)
Definition lcg (seed : Z) : Z :=
  (seed * 6364136223846793005 + 1442695040888963407) mod 2 ^ 63.

Definition env
    (ips : list HttpResult)                 (* answers of the IP endpoint *)
    (dial : nat -> option error)            (* answers of the TCP backend *)
    (write : nat -> string -> option error) (* failures of local writes *)
    (getfile : string -> string * option error) (* the remote files *)
    (clock : nat -> Z)
  : Env :=
  {| GOOS := "darwin";
     Getenv := fun k => if String.eqb k "HOME" then "/Users/me" else "";
     filepath_Join := Join;
     bytes_TrimSpace := TrimSpace;
     time_Now_UnixNano := clock;
     rand_Int_seeded := lcg;
     http_Get := fun k _ => nth k ips (HttpGetFails "EOF");
     net_Dial := fun k _ _ => dial k;
     ioutil_WriteFile := write;
     sshclient_New := fun _ => ("ssh-rsa AAAA", None);
     sshclient_Run := fun _ _ _ _ => ("", None);
     sshclient_GetFileFromContainer := fun _ _ _ _ path => getfile path;
     services_GenerateCloudConfig := fun _ _ => ("#cloud-config", None);
     doclient_CreateDroplet := fun _ _ _ _ _ _ => (42, None);
     doclient_WaitForDropletIP := fun _ _ => ("10.0.0.1", None);
     doclient_CreateFirewall := fun _ _ _ => None;
     genconfig_GenerateAppleConfig := fun _ _ _ _ _ _ => ("<apple/>", None);
     genconfig_GenerateAndroidConfig := fun _ _ _ _ => ("{android}", None);
     vpn_OSXAddVPN := fun _ => None |}.

Definition dial_ok : nat -> option error := fun _ => None.
Definition dial_refused : nat -> option error :=
  fun _ => Some "connection refused".
(** The backend refuses until attempt [k] (counted from 1). *)
Definition dial_ok_at (k : nat) : nat -> option error :=
  fun i => if (i <? k - 1)%nat then Some "connection refused" else None.

Definition write_ok : nat -> string -> option error := fun _ _ => None.
(** The first local write of the run fails, the later ones succeed. *)
Definition write_first_fails : nat -> string -> option error :=
  fun k _ => if (k =? 0)%nat then Some "permission denied" else None.

Definition files_ok (path : string) : string * option error :=
  ("content of " +:+ path, None).
(** The fetch of the CA certificate, the second artifact, fails. *)
Definition files_second_fails (path : string) : string * option error :=
  if String.eqb path "/etc/ipsec.d/cacerts/ca.cert.pem"
  then ("", Some "ssh: no such file")
  else files_ok path.

Definition clock : nat -> Z := fun k => 1500000000000000000 + Z.of_nat k.
Definition clock_coarse : nat -> Z := fun _ => 1500000000000000000.

Definition ip (s : string) : HttpResult :=
  HttpBody (s +:+ String (Ascii.ascii_of_nat 10) "").

Definition empty_world : World := mkWorld ∅ [].

(** A deployment as [New "tok" "nyc1" auto] makes it, with its name. *)
Definition deployment_named (name : string) (auto : bool) : Deployment :=
  {| Region := "nyc1"; AutoConfigure := auto; Name := name;
     Token := "tok"; services := ["coreos"; "dosxvpn"; "pihole"];
     userData := "#cloud-config"; dropletIP := ""; dropletID := 0;
     doClient := "tok"; sshClient := "ssh-rsa AAAA"; VpnPassword := "";
     Status := "pending auth"; VPNIPAddress := ""; InitialPublicIP := "";
     FinalPublicIP := "" |}.

Definition deployment (auto : bool) : Deployment :=
  deployment_named "dosxvpn-129-nyc1" auto.

End Scenario.

(** ** Vocabulary for traces *)

(** The events of [n] failed attempts: a dial and a sleep each. *)
Fixpoint failed_attempts (address : string) (n : nat) : list Event :=
  match n with
  | O => []
  | S n' => EvDial "tcp" address :: EvSleep (5 * Second)
            :: failed_attempts address n'
  end.

(** The events [waitForPort] can add to a trace. *)
Definition port_event (e : Event) : bool :=
  match e with
  | EvDial _ _ | EvSleep _ | EvConnClose _ => true
  | _ => false
  end.

(** The events the convergence loop of [Run] can add to a trace. *)
Definition probe_event (e : Event) : bool :=
  match e with
  | EvSleep _ | EvHttpGet _ => true
  | _ => false
  end.

(** The events a process added to the trace of the world [w] it started in. *)
Definition new_events (w : World) (p : Proc) : list Event :=
  drop (length (trace w)) (trace (world p)).

(** The values of [d.Status] that can be observed over a run started on
    the deployment [d] in the world [w] and ended in [p]: the value [d]
    came with, then each value assigned. *)
Definition observed_statuses (d : Deployment) (w : World) (p : Proc) : list string :=
  Status d :: statuses (new_events w p).

(** The five values of the status field, in their required order. *)
Definition StatusOrder : list string :=
  ["pending auth"; "waiting for ssh"; "adding vpn to osx";
   "waiting for ip address change"; "done"].

(** The random token [New] puts into the name when the clock is read for
    the [k]-th time. *)
Definition token_at (E : Env) (k : nat) : string :=
  String.substring 0 3 (pretty (rand_Int_seeded E (time_Now_UnixNano E k))).

(** What the endpoint's [k]-th answer makes [getPublicIp] return. *)
Definition probe_answer (E : Env) (k : nat) : string * option error :=
  match http_Get E k checkip with
  | HttpGetFails e | HttpReadFails e => ("", Some e)
  | HttpBody buf => (bytes_TrimSpace E buf, None)
  end.

(** The collaborators let a run of [d] started in [w] get as far as the
    retrieval of the VPN files: the droplet [id] is created and gets the
    address [ip], the firewall is set up, port 22 of [ip] accepts the
    attempt after [j] refused ones, and the remote wait command succeeds. *)
Definition reaches_artifacts
    (E : Env) (d : Deployment) (w : World) (id : Z) (ip : string) (j : nat) : Prop :=
  doclient_CreateDroplet E (doClient d) (Name d) (Region d) (DropletSize)
    (userData d) (DropletImage) = (id, None)
  /\ doclient_WaitForDropletIP E (doClient d) id = (ip, None)
  /\ doclient_CreateFirewall E (doClient d) (Name d) id = None
  /\ (j < 15)%nat
  /\ (forall i, (i < j)%nat ->
        net_Dial E (count is_dial (trace w) + i) "tcp" (host_port ip 22) <> None)
  /\ net_Dial E (count is_dial (trace w) + j) "tcp" (host_port ip 22) = None
  /\ snd (sshclient_Run E (sshClient d) "core" ip wait_for_vpn) = None.

(** All characters, and all strings of at most [n] characters. *)
Definition all_ascii : list Ascii.ascii :=
  Ascii.ascii_of_nat <$> seq 0 256.

Fixpoint strings_upto (n : nat) : list string :=
  match n with
  | O => [""]
  | S n' => "" :: (c ← all_ascii; s ← strings_upto n'; [String c s])
  end.

(** The environment [E] with another clock. *)
Definition with_clock (E : Env) (clock : nat -> Z) : Env :=
  {| GOOS := GOOS E;
     Getenv := Getenv E;
     filepath_Join := filepath_Join E;
     bytes_TrimSpace := bytes_TrimSpace E;
     time_Now_UnixNano := clock;
     rand_Int_seeded := rand_Int_seeded E;
     http_Get := http_Get E;
     net_Dial := net_Dial E;
     ioutil_WriteFile := ioutil_WriteFile E;
     sshclient_New := sshclient_New E;
     sshclient_Run := sshclient_Run E;
     sshclient_GetFileFromContainer := sshclient_GetFileFromContainer E;
     services_GenerateCloudConfig := services_GenerateCloudConfig E;
     doclient_CreateDroplet := doclient_CreateDroplet E;
     doclient_WaitForDropletIP := doclient_WaitForDropletIP E;
     doclient_CreateFirewall := doclient_CreateFirewall E;
     genconfig_GenerateAppleConfig := genconfig_GenerateAppleConfig E;
     genconfig_GenerateAndroidConfig := genconfig_GenerateAndroidConfig E;
     vpn_OSXAddVPN := vpn_OSXAddVPN E |}.

(** ** Vocabulary for the further properties *)

(** The environment [E] with another generator behind [rand.Int]. *)
Definition with_generator (E : Env) (gen : Z -> Z) : Env :=
  {| GOOS := GOOS E;
     Getenv := Getenv E;
     filepath_Join := filepath_Join E;
     bytes_TrimSpace := bytes_TrimSpace E;
     time_Now_UnixNano := time_Now_UnixNano E;
     rand_Int_seeded := gen;
     http_Get := http_Get E;
     net_Dial := net_Dial E;
     ioutil_WriteFile := ioutil_WriteFile E;
     sshclient_New := sshclient_New E;
     sshclient_Run := sshclient_Run E;
     sshclient_GetFileFromContainer := sshclient_GetFileFromContainer E;
     services_GenerateCloudConfig := services_GenerateCloudConfig E;
     doclient_CreateDroplet := doclient_CreateDroplet E;
     doclient_WaitForDropletIP := doclient_WaitForDropletIP E;
     doclient_CreateFirewall := doclient_CreateFirewall E;
     genconfig_GenerateAppleConfig := genconfig_GenerateAppleConfig E;
     genconfig_GenerateAndroidConfig := genconfig_GenerateAndroidConfig E;
     vpn_OSXAddVPN := vpn_OSXAddVPN E |}.

(** The names of the five files of the deployment [name]. *)
Definition config_filenames (name : string) : list string :=
  [FilenameAppleConfig name; FilenameAndroidConfig name;
   FilenamePrivateKey name; FilenameCACert name; FilenameServerCert name].

(** The test of the convergence loop fails on the answer [a] of a probe:
    an error, an empty address, or the baseline [ip0]. *)
Definition unchanged (ip0 : string) (a : string * option error) : bool :=
  negb (is_nil (snd a) && negb (String.eqb (fst a) "")
        && negb (String.eqb (fst a) ip0)).

(** The events of [n] turns of the convergence loop that see no change: a
    sleep and a probe each. *)
Fixpoint quiet_turns (n : nat) : list Event :=
  match n with
  | O => []
  | S n' => EvSleep (Second * 5) :: EvHttpGet checkip :: quiet_turns n'
  end.

(** The events of [getAndSaveConfigFiles] over the entries [order] when
    every fetch succeeds: per entry the fetch, the making of the
    directory and the write of what was fetched. *)
Definition pipeline_events
    (E : Env) (client ip name : string)
    (order : list (string * (string -> string))) : list Event :=
  flat_map
    (fun entry =>
       [EvGetFile "core" ip "dosxvpn" (fst entry);
        EvMkdirAll (FilepathDosxvpnConfigDir E);
        EvWriteFile (config_path E (snd entry) name)
          (fst (sshclient_GetFileFromContainer E client "core" ip "dosxvpn"
                  (fst entry)))])
    order.

Definition is_sleep (e : Event) : bool :=
  match e with EvSleep _ => true | _ => false end.
Definition is_mkdirall (e : Event) : bool :=
  match e with EvMkdirAll _ => true | _ => false end.

(** What the collaborators hand to a run of [d]: the droplet's id and
    address, the remote files, the two rendered client configurations. *)
Definition provisioned_id (E : Env) (d : Deployment) : Z :=
  fst (doclient_CreateDroplet E (doClient d) (Name d) (Region d) DropletSize
         (userData d) DropletImage).
Definition provisioned_ip (E : Env) (d : Deployment) : string :=
  fst (doclient_WaitForDropletIP E (doClient d) (provisioned_id E d)).
Definition fetched (E : Env) (d : Deployment) (remote : string)
  : string * option error :=
  sshclient_GetFileFromContainer E (sshClient d) "core" (provisioned_ip E d)
    "dosxvpn" remote.
Definition rendered_apple (E : Env) (d : Deployment) : string * option error :=
  genconfig_GenerateAppleConfig E (provisioned_ip E d) (Name d)
    (fst (fetched E d remote_password)) (fst (fetched E d remote_private_key))
    (fst (fetched E d remote_ca_cert)) (fst (fetched E d remote_server_cert)).
Definition rendered_android (E : Env) (d : Deployment) : string * option error :=
  genconfig_GenerateAndroidConfig E (provisioned_ip E d) (Name d)
    (fst (fetched E d remote_private_key)) (fst (fetched E d remote_ca_cert)).

(** The errors [Run] passes to [log.Fatal], and those it returns. *)
Definition fatal_errors (E : Env) (d : Deployment) : list (option error) :=
  [snd (doclient_CreateDroplet E (doClient d) (Name d) (Region d) DropletSize
          (userData d) DropletImage);
   snd (doclient_WaitForDropletIP E (doClient d) (provisioned_id E d));
   doclient_CreateFirewall E (doClient d) (Name d) (provisioned_id E d);
   Some (timed_out 22);
   snd (sshclient_Run E (sshClient d) "core" (provisioned_ip E d) wait_for_vpn)].
Definition returned_errors (E : Env) (d : Deployment) : list (option error) :=
  [snd (fetched E d remote_password); snd (fetched E d remote_private_key);
   snd (fetched E d remote_ca_cert); snd (fetched E d remote_server_cert);
   snd (rendered_apple E d); snd (rendered_android E d)].

(** The paths of the five files of a deployment in the configuration
    directory, and the events that write nowhere else. *)
Definition config_paths (E : Env) (name : string) : list string :=
  filepath_Join E (FilepathDosxvpnConfigDir E) <$> config_filenames name.
Definition writes_within (paths : list string) (e : Event) : Prop :=
  match e with
  | EvWriteFile path _ => path ∈ paths
  | _ => True
  end.

Definition is_createdroplet (e : Event) : bool :=
  match e with EvCreateDroplet _ _ _ _ _ => true | _ => false end.

(** Every write in the trace [t] comes right after the making of the
    directory [dir]; [prev] tells whether the event just before [t] was
    that. *)
Fixpoint guarded_writes (dir : string) (prev : bool) (t : list Event) : bool :=
  match t with
  | [] => true
  | EvWriteFile _ _ :: t' => prev && guarded_writes dir false t'
  | EvMkdirAll d :: t' => guarded_writes dir (String.eqb d dir) t'
  | _ :: t' => guarded_writes dir false t'
  end.

(** The events of [t] before the first one of the kind [p]. *)
Fixpoint events_before (p : Event -> bool) (t : list Event) : list Event :=
  match t with
  | [] => []
  | e :: t' => if p e then [] else e :: events_before p t'
  end.

(** * Properties *)

(** ** Traces *)

Lemma count_app p (t1 t2 : list Event) :
  count p (t1 ++ t2) = (count p t1 + count p t2)%nat.
Proof. unfold count. by rewrite List.filter_app, length_app. Qed.

Lemma statuses_app (t1 t2 : list Event) :
  statuses (t1 ++ t2) = statuses t1 ++ statuses t2.
Proof.
  induction t1 as [|e t1 IH]; [done|].
  destruct e; simpl; by rewrite ?IH.
Qed.

(** ** [waitForPort] *)

Section WaitForPort.

Variable E : Env.
Variables (host : string) (port : Z).

Let addr : string := host_port host port.

Lemma count_dial_failed_attempts a n : count is_dial (failed_attempts a n) = n.
Proof. induction n as [|n IH]; [done|]. unfold count in *. simpl. by rewrite IH. Qed.

Lemma count_close_failed_attempts a n : count is_close (failed_attempts a n) = O.
Proof. induction n as [|n IH]; [done|]. unfold count in *. simpl. by rewrite IH. Qed.

Lemma failed_attempts_port_events a n :
  forallb port_event (failed_attempts a n) = true.
Proof. induction n as [|n IH]; [done|]. simpl. exact IH. Qed.

(** One turn of the loop. *)
Lemma waitForPort_loop_step r w :
  waitForPort_loop E (S r) host port w =
  match net_Dial E (count is_dial (trace w)) "tcp" addr with
  | Some _ =>
      waitForPort_loop E r host port
        (mkWorld (fs w) (trace w ++ [EvDial "tcp" addr; EvSleep (5 * Second)]))
  | None =>
      (Val ExitConnected,
       mkWorld (fs w) (trace w ++ [EvDial "tcp" addr; EvConnClose addr]))
  end.
Proof.
  subst addr. simpl. unfold bind, Dial, calls, emit, time_Sleep, conn_Close, ret.
  simpl. destruct (net_Dial E _ _ _); simpl; by rewrite <- app_assoc.
Qed.

Lemma waitForPort_loop_all_fail n : forall w,
  (forall i, (i < n)%nat ->
     net_Dial E (count is_dial (trace w) + i) "tcp" addr <> None) ->
  waitForPort_loop E n host port w =
    (Val ExitTimeout, mkWorld (fs w) (trace w ++ failed_attempts addr n)).
Proof.
  induction n as [|n IH]; intros w Hfail.
  - simpl. unfold ret. destruct w; simpl. by rewrite app_nil_r.
  - rewrite waitForPort_loop_step.
    pose proof (Hfail O ltac:(lia)) as H0. rewrite Nat.add_0_r in H0.
    destruct (net_Dial E (count is_dial (trace w)) "tcp" addr) as [e|]; [|done].
    rewrite IH; simpl.
    + by rewrite <- app_assoc.
    + intros i Hi. rewrite count_app. unfold count at 2. simpl.
      replace (count is_dial (trace w) + 1 + i)%nat
        with (count is_dial (trace w) + S i)%nat by lia.
      apply Hfail. lia.
Qed.

Lemma waitForPort_loop_first_success n : forall j w,
  (j < n)%nat ->
  (forall i, (i < j)%nat ->
     net_Dial E (count is_dial (trace w) + i) "tcp" addr <> None) ->
  net_Dial E (count is_dial (trace w) + j) "tcp" addr = None ->
  waitForPort_loop E n host port w =
    (Val ExitConnected,
     mkWorld (fs w)
       (trace w ++ failed_attempts addr j ++ [EvDial "tcp" addr; EvConnClose addr])).
Proof.
  induction n as [|n IH]; intros j w Hj Hfail Hok; [lia|].
  rewrite waitForPort_loop_step. destruct j as [|j].
  - rewrite Nat.add_0_r in Hok. rewrite Hok. reflexivity.
  - pose proof (Hfail O ltac:(lia)) as H0. rewrite Nat.add_0_r in H0.
    destruct (net_Dial E (count is_dial (trace w)) "tcp" addr) as [e|]; [|done].
    rewrite (IH j); simpl.
    + by rewrite <- app_assoc.
    + lia.
    + intros i Hi. rewrite count_app. unfold count at 2. simpl.
      replace (count is_dial (trace w) + 1 + i)%nat
        with (count is_dial (trace w) + S i)%nat by lia.
      apply Hfail. lia.
    + rewrite count_app. unfold count at 2. simpl.
      by replace (count is_dial (trace w) + 1 + j)%nat
        with (count is_dial (trace w) + S j)%nat by lia.
Qed.

(** The loop always ends, through one of two of the three [return]s, and
    only adds dials, sleeps and a close to the trace. *)
Lemma waitForPort_loop_total n : forall w,
  exists x t,
    waitForPort_loop E n host port w = (Val x, mkWorld (fs w) (trace w ++ t))
    /\ (x = ExitConnected \/ x = ExitTimeout)
    /\ forallb port_event t = true.
Proof.
  induction n as [|n IH]; intros w.
  - exists ExitTimeout, []. simpl. unfold ret. destruct w; simpl.
    rewrite app_nil_r. auto.
  - rewrite waitForPort_loop_step. destruct (net_Dial E _ _ _) as [e|].
    + destruct (IH (mkWorld (fs w)
                      (trace w ++ [EvDial "tcp" addr; EvSleep (5 * Second)])))
        as (x & t & Heq & Hx & Ht).
      exists x, ([EvDial "tcp" addr; EvSleep (5 * Second)] ++ t).
      rewrite Heq. simpl. rewrite <- app_assoc. simpl. auto.
    + exists ExitConnected, [EvDial "tcp" addr; EvConnClose addr]. auto.
Qed.

End WaitForPort.

(** ** The steps of [Run] *)

Lemma count_cons p (e : Event) (t : list Event) :
  count p (e :: t) = ((if p e then 1 else 0) + count p t)%nat.
Proof. unfold count. simpl. by destruct (p e). Qed.

Lemma count_nil p : count p [] = O.
Proof. done. Qed.

Lemma count_port_events p (t : list Event) :
  (forall e, port_event e = true -> p e = false) ->
  forallb port_event t = true -> count p t = O.
Proof.
  intros Hp. induction t as [|e t IH]; [done|]. simpl.
  intros [He Ht]%andb_prop. rewrite count_cons, (Hp e He), IH; done.
Qed.

Lemma count_probe_events p (t : list Event) :
  (forall e, probe_event e = true -> p e = false) ->
  forallb probe_event t = true -> count p t = O.
Proof.
  intros Hp. induction t as [|e t IH]; [done|]. simpl.
  intros [He Ht]%andb_prop. rewrite count_cons, (Hp e He), IH; done.
Qed.

Lemma statuses_port_events (t : list Event) :
  forallb port_event t = true -> statuses t = [].
Proof.
  induction t as [|e t IH]; [done|]. simpl.
  intros [He Ht]%andb_prop. destruct e; try done; by apply IH.
Qed.

Lemma statuses_probe_events (t : list Event) :
  forallb probe_event t = true -> statuses t = [].
Proof.
  induction t as [|e t IH]; [done|]. simpl.
  intros [He Ht]%andb_prop. destruct e; try done; by apply IH.
Qed.

Lemma waitForSSH_total E ip w :
  exists r t,
    waitForSSH E ip w = (Val r, mkWorld (fs w) (trace w ++ t))
    /\ (r = None \/ r = Some (timed_out 22))
    /\ forallb port_event t = true.
Proof.
  unfold waitForSSH, waitForPort, bind.
  destruct (waitForPort_loop_total E ip 22 15 w) as (x & t & -> & [->| ->] & Ht);
    simpl; eauto 10.
Qed.

Lemma getPublicIp_eq E w :
  getPublicIp E w =
    (Val (probe_answer E (count is_httpget (trace w))),
     mkWorld (fs w) (trace w ++ [EvHttpGet checkip])).
Proof.
  unfold getPublicIp, probe_answer, http_Get_ReadAll, bind, calls, emit, ret.
  simpl. by destruct (http_Get E _ _).
Qed.

Lemma saveConfig_eq E c f w :
  saveConfig E c f w =
    (Val match ioutil_WriteFile E (count is_write (trace w)) f with
         | Some e => ("", Some e)
         | None => (f, None)
         end,
     mkWorld
       match ioutil_WriteFile E (count is_write (trace w)) f with
       | Some _ => fs w
       | None => <[f := c]> (fs w)
       end
       (trace w ++ [EvMkdirAll (FilepathDosxvpnConfigDir E); EvWriteFile f c])).
Proof.
  unfold saveConfig, os_MkdirAll, WriteFile, bind, calls, emit, ret. simpl.
  rewrite count_app, count_cons, count_nil. simpl. rewrite Nat.add_0_r.
  destruct (ioutil_WriteFile E _ f); simpl; by rewrite <- app_assoc.
Qed.

(** The loop always ends; it assigns [FinalPublicIP] at most, and only
    sleeps and probes. *)
Lemma convergence_loop_total E ip0 n : forall p,
  exists v t,
    convergence_loop E n ip0 p =
      (Val tt,
       mkProc match v with
              | Some x => set_FinalPublicIP x (self p)
              | None => self p
              end
              (mkWorld (fs (world p)) (trace (world p) ++ t)))
    /\ forallb probe_event t = true.
Proof.
  induction n as [|n IH]; intros p.
  - exists None, []. simpl. unfold ret. destruct p as [d [f t]]. simpl.
    by rewrite app_nil_r.
  - cbn [convergence_loop]. unfold bind at 1. unfold io at 1, time_Sleep, emit.
    cbn [world self fs trace]. unfold bind at 1. unfold io at 1.
    rewrite getPublicIp_eq. cbn [world self fs trace].
    destruct (probe_answer E _) as [newIP err].
    destruct (is_nil err && negb (String.eqb newIP "")
              && negb (String.eqb newIP ip0)).
    + unfold bind at 1. unfold io at 1. rewrite getPublicIp_eq.
      cbn [world self fs trace].
      destruct (probe_answer E _) as [newIP' err'].
      unfold bind, assign, ret. cbn [world self fs trace].
      exists (Some newIP'). eexists. split.
      * rewrite <- !app_assoc. reflexivity.
      * reflexivity.
    + destruct (IH (mkProc (self p) (mkWorld (fs (world p))
          ((trace (world p) ++ [EvSleep (Second * 5)]) ++ [EvHttpGet checkip]))))
        as (v & t & Heq & Ht).
      rewrite Heq. cbn [world self fs trace].
      exists v. eexists. split.
      * rewrite <- !app_assoc. reflexivity.
      * simpl. exact Ht.
Qed.

(** Symbolic execution of [Run] in a hypothesis [H : Run E d w = (o, p)]:
    [run_unfold] exposes the sequence of steps, [run_step] takes the next
    one, splitting on the answer of the collaborator asked. *)
Ltac run_unfold H :=
  unfold Run, call, Run_body, assign_Status, CreateDroplet, WaitForDropletIP,
    CreateFirewall, sshRun, GetFileFromContainer, OSXAddVPN, fatal_if_err,
    return_if_err, log_Fatal, return_, bind, io, ret, assign, this, emit in H.

Ltac run_cbn H :=
  cbn beta iota zeta delta
      [fst snd self world fs trace
       set_userData set_dropletIP set_dropletID set_sshClient set_VpnPassword
       set_Status set_VPNIPAddress set_InitialPublicIP set_FinalPublicIP
       Region AutoConfigure Name Token services userData dropletIP dropletID
       doClient sshClient VpnPassword Status VPNIPAddress InitialPublicIP
       FinalPublicIP] in H.

Ltac run_step H :=
  run_cbn H;
  match type of H with
  | context [getPublicIp ?E ?w] =>
      rewrite (getPublicIp_eq E w) in H;
      destruct (probe_answer E (count is_httpget (trace w))) as [? ?] eqn:?
  | context [doclient_CreateDroplet ?E ?a ?b ?c ?d ?e ?f] =>
      destruct (doclient_CreateDroplet E a b c d e f) as [? [?|]] eqn:?
  | context [doclient_WaitForDropletIP ?E ?a ?b] =>
      destruct (doclient_WaitForDropletIP E a b) as [? [?|]] eqn:?
  | context [doclient_CreateFirewall ?E ?a ?b ?c] =>
      destruct (doclient_CreateFirewall E a b c) as [?|] eqn:?
  | context [waitForSSH ?E ?ip ?w] =>
      let Hs := fresh "Hssh" in let Hr := fresh "Hr" in
      let Ht := fresh "Hport" in
      destruct (waitForSSH_total E ip w) as (? & ? & Hs & Hr & Ht);
      rewrite Hs in H; clear Hs; destruct Hr; subst
  | context [sshclient_Run ?E ?a ?b ?c ?d] =>
      destruct (sshclient_Run E a b c d) as [? [?|]] eqn:?
  | context [sshclient_GetFileFromContainer ?E ?a ?b ?c ?d ?e] =>
      destruct (sshclient_GetFileFromContainer E a b c d e) as [? [?|]] eqn:?
  | context [saveConfig ?E ?c ?f ?w] =>
      rewrite (saveConfig_eq E c f w) in H;
      let wr := fresh "wr" in
      remember (ioutil_WriteFile E (count is_write (trace w)) f) as wr
  | context [genconfig_GenerateAppleConfig ?E ?a ?b ?c ?d ?e ?f] =>
      destruct (genconfig_GenerateAppleConfig E a b c d e f) as [? [?|]] eqn:?
  | context [genconfig_GenerateAndroidConfig ?E ?a ?b ?c ?d] =>
      destruct (genconfig_GenerateAndroidConfig E a b c d) as [? [?|]] eqn:?
  | context [convergence_loop ?E ?n ?ip ?p] =>
      let Hs := fresh "Hloop" in let Ht := fresh "Hprobe" in
      destruct (convergence_loop_total E ip n p) as ([?|] & ? & Hs & Ht);
      rewrite Hs in H; clear Hs
  | context [if AutoConfigure ?d then _ else _] =>
      destruct (AutoConfigure d) eqn:?
  end.

(** At the end of a path the outcome and the final state are read off. *)
Ltac run_done H :=
  run_cbn H; rewrite <- ?app_assoc in H; cbn [app] in H;
  apply pair_equal_spec in H; destruct H as [<- <-];
  cbn [fst snd self world fs trace].

Ltac run_all H := run_unfold H; repeat run_step H; run_done H.

(** Counting and status extraction over the trace a path has produced. *)
Ltac trace_norm :=
  repeat first
    [ progress cbn [statuses app]
    | rewrite statuses_app
    | rewrite count_cons
    | rewrite count_app
    | rewrite count_nil ];
  repeat match goal with
    | Hp : forallb port_event ?t = true |- _ =>
        rewrite ?(statuses_port_events t Hp),
          ?(count_port_events is_osxaddvpn t (fun e => ltac:(by destruct e)) Hp),
          ?(count_port_events is_httpget t (fun e => ltac:(by destruct e)) Hp),
          ?(count_port_events is_getfile t (fun e => ltac:(by destruct e)) Hp),
          ?(count_port_events is_write t (fun e => ltac:(by destruct e)) Hp);
        clear Hp
    | Hp : forallb probe_event ?t = true |- _ =>
        rewrite ?(statuses_probe_events t Hp),
          ?(count_probe_events is_osxaddvpn t (fun e => ltac:(by destruct e)) Hp);
        clear Hp
    end;
  cbn [app is_osxaddvpn is_httpget is_getfile is_write Nat.add].

(** ** [getAndSaveConfigFiles] *)

(** A fetch that fails ends the range at once, with that error; a fetch
    that succeeds is followed by [saveConfig], whose results are dropped,
    and the range goes on. *)
Lemma getAndSaveConfigFiles_fetch_fails
    E p ip name remoteFile localFile rest junk e :
  sshclient_GetFileFromContainer E (sshClient (self p)) "core" ip "dosxvpn"
    remoteFile = (junk, Some e) ->
  getAndSaveConfigFiles E ((remoteFile, localFile) :: rest) ip name p =
    (Return (Some e),
     mkProc (self p)
       (mkWorld (fs (world p))
          (trace (world p) ++ [EvGetFile "core" ip "dosxvpn" remoteFile]))).
Proof.
  intros Hfetch. cbn [getAndSaveConfigFiles].
  unfold bind, this, io, GetFileFromContainer, emit, ret, bind.
  cbn [self world fs trace]. by rewrite Hfetch.
Qed.

Lemma getAndSaveConfigFiles_fetch_ok
    E p ip name remoteFile localFile rest content :
  sshclient_GetFileFromContainer E (sshClient (self p)) "core" ip "dosxvpn"
    remoteFile = (content, None) ->
  getAndSaveConfigFiles E ((remoteFile, localFile) :: rest) ip name p =
    getAndSaveConfigFiles E rest ip name
      (mkProc (self p)
         (snd (saveConfig E content (config_path E localFile name)
                 (mkWorld (fs (world p))
                    (trace (world p)
                       ++ [EvGetFile "core" ip "dosxvpn" remoteFile]))))).
Proof.
  intros Hfetch. cbn [getAndSaveConfigFiles].
  unfold bind at 1. unfold this. unfold bind at 1.
  unfold io at 1, GetFileFromContainer, emit, ret, bind.
  cbn [self world fs trace]. rewrite Hfetch. unfold return_if_err, ret, io.
  cbn [self world]. rewrite saveConfig_eq. reflexivity.
Qed.

(** ** [waitForPort]: time-out, first success, the dead arm *)

(** C3: if the TCP connect backend fails on each of the attempts that
    [waitForPort] makes, the call returns the timed-out error after exactly
    15 dials (each followed by the 5 second sleep), for every host and
    port; being a function, it always ends. *)
Theorem waitForPort_times_out_after_15_attempts
    (E : Env) (host : string) (port : Z) (w : World) :
  (forall i, (i < 15)%nat ->
     net_Dial E (count is_dial (trace w) + i) "tcp" (host_port host port) <> None) ->
  waitForPort E host port w =
    (Val (Some (timed_out port)),
     mkWorld (fs w) (trace w ++ failed_attempts (host_port host port) 15))
  /\ count is_dial (trace (snd (waitForPort E host port w)))
     = (count is_dial (trace w) + 15)%nat.
Proof.
  intros Hfail.
  assert (waitForPort E host port w =
    (Val (Some (timed_out port)),
     mkWorld (fs w) (trace w ++ failed_attempts (host_port host port) 15))) as Heq.
  { unfold waitForPort, bind. by rewrite waitForPort_loop_all_fail. }
  split; [exact Heq|].
  rewrite Heq. cbn [snd trace]. by rewrite count_app, count_dial_failed_attempts.
Qed.

Lemma waitForPort_times_out_after_15_attempts_witness :
  let E := Scenario.env [] Scenario.dial_refused Scenario.write_ok
             Scenario.files_ok Scenario.clock in
  (forall i, (i < 15)%nat ->
     net_Dial E (count is_dial (trace Scenario.empty_world) + i) "tcp"
       (host_port "10.0.0.1" 22) <> None)
  /\ waitForPort E "10.0.0.1" 22 Scenario.empty_world =
       (Val (Some "timed out waiting for port 22 to open"),
        mkWorld ∅ (failed_attempts "10.0.0.1:22" 15)).
Proof.
  intros E.
  assert (forall i, (i < 15)%nat ->
     net_Dial E (count is_dial (trace Scenario.empty_world) + i) "tcp"
       (host_port "10.0.0.1" 22) <> None) as H by (intros i _; discriminate).
  split; [exact H|].
  exact (proj1 (waitForPort_times_out_after_15_attempts
                  E "10.0.0.1" 22 Scenario.empty_world H)).
Defined.

(** C4: if the backend refuses the first [k - 1] attempts and accepts the
    [k]-th, with [1 <= k <= 15], [waitForPort] returns [nil] right after
    attempt [k]: the trace ends with the [k]-th dial and the close of the
    probe connection, and exactly [k] dials were made. *)
Theorem waitForPort_returns_at_first_success
    (E : Env) (host : string) (port : Z) (w : World) (k : nat) :
  (1 <= k <= 15)%nat ->
  (forall i, (i < k - 1)%nat ->
     net_Dial E (count is_dial (trace w) + i) "tcp" (host_port host port) <> None) ->
  net_Dial E (count is_dial (trace w) + (k - 1)) "tcp" (host_port host port) = None ->
  waitForPort E host port w =
    (Val None,
     mkWorld (fs w)
       (trace w ++ failed_attempts (host_port host port) (k - 1)
          ++ [EvDial "tcp" (host_port host port);
              EvConnClose (host_port host port)]))
  /\ count is_dial (trace (snd (waitForPort E host port w)))
     = (count is_dial (trace w) + k)%nat
  /\ count is_close (trace (snd (waitForPort E host port w)))
     = (count is_close (trace w) + 1)%nat.
Proof.
  intros Hk Hfail Hok.
  assert (waitForPort E host port w =
    (Val None,
     mkWorld (fs w)
       (trace w ++ failed_attempts (host_port host port) (k - 1)
          ++ [EvDial "tcp" (host_port host port);
              EvConnClose (host_port host port)]))) as Heq.
  { unfold waitForPort, bind.
    rewrite (waitForPort_loop_first_success E host port 15 (k - 1)); [done|lia|done..]. }
  split; [exact Heq|]. rewrite Heq. cbn [snd trace].
  rewrite !count_app, count_dial_failed_attempts, count_close_failed_attempts.
  unfold count. simpl. lia.
Qed.

Lemma waitForPort_returns_at_first_success_witness :
  let E := Scenario.env [] (Scenario.dial_ok_at 3) Scenario.write_ok
             Scenario.files_ok Scenario.clock in
  waitForPort E "10.0.0.1" 22 Scenario.empty_world =
    (Val None,
     mkWorld ∅ [EvDial "tcp" "10.0.0.1:22"; EvSleep 5000000000;
                EvDial "tcp" "10.0.0.1:22"; EvSleep 5000000000;
                EvDial "tcp" "10.0.0.1:22"; EvConnClose "10.0.0.1:22"]).
Proof.
  intros E.
  refine (proj1 (waitForPort_returns_at_first_success
                   E "10.0.0.1" 22 Scenario.empty_world 3 _ _ _)).
  - lia.
  - intros i Hi. simpl in Hi.
    destruct i as [|[|i]]; [discriminate|discriminate|lia].
  - reflexivity.
Defined.

(** C10: whatever the host, the port and the answers of the TCP backend,
    [waitForPort] returns [nil] or the timed-out error, and the loop is
    never left through the [else if err != nil] arm. *)
Theorem waitForPort_connect_error_arm_unreachable
    (E : Env) (host : string) (port : Z) (w : World) :
  (fst (waitForPort E host port w) = Val None
   \/ fst (waitForPort E host port w) = Val (Some (timed_out port)))
  /\ forall n e, fst (waitForPort_loop E n host port w) <> Val (ExitConnErr e).
Proof.
  split.
  - unfold waitForPort, bind.
    destruct (waitForPort_loop_total E host port 15 w) as (x & t & -> & [->| ->] & _);
      simpl; auto.
  - intros n e.
    destruct (waitForPort_loop_total E host port n w) as (x & t & -> & [->| ->] & _);
      simpl; congruence.
Qed.

(** ** [Run] *)

(** C8: if the first public-IP probe of [Run] fails (the request or the
    reading of its body), [InitialPublicIP] is empty when the run ends and
    the run went on to provisioning: the call that follows the probe is
    the creation of the droplet. *)
Theorem Run_initial_probe_failure_is_not_fatal
    (E : Env) (d : Deployment) (w : World) :
  (forall body, http_Get E (count is_httpget (trace w)) checkip <> HttpBody body) ->
  InitialPublicIP (self (snd (Run E d w))) = ""
  /\ exists t,
       trace (world (snd (Run E d w))) =
         trace w ++ EvHttpGet checkip
           :: EvCreateDroplet (Name d) (Region d) DropletSize (userData d)
                DropletImage
           :: t.
Proof.
  intros Hfail.
  assert (fst (probe_answer E (count is_httpget (trace w))) = "") as Hip.
  { unfold probe_answer.
    destruct (http_Get E _ _) as [e|e|body] eqn:Hget; [done|done|].
    by destruct (Hfail body). }
  destruct (Run E d w) as [o p] eqn:H. cbn [fst snd].
  run_all H.
  all: simpl in Hip; subst.
  all: split; [reflexivity | eexists; reflexivity].
Qed.

Lemma Run_initial_probe_failure_is_not_fatal_witness :
  let E := Scenario.env [] Scenario.dial_ok Scenario.write_ok
             Scenario.files_ok Scenario.clock in
  let r := Run E (Scenario.deployment false) Scenario.empty_world in
  InitialPublicIP (self (snd r)) = ""
  /\ exists t,
       trace (world (snd r)) =
         [] ++ EvHttpGet checkip
           :: EvCreateDroplet "dosxvpn-129-nyc1" "nyc1" "512mb" "#cloud-config"
                "coreos-beta"
           :: t.
Proof.
  intros E r.
  apply (Run_initial_probe_failure_is_not_fatal
           E (Scenario.deployment false) Scenario.empty_world).
  intros body. simpl. discriminate.
Defined.

(** C7: a run with [AutoConfigure] off never calls the local
    network-settings mutator and makes no public-IP probe besides the
    initial one, hence no turn of the convergence loop; the two statuses
    of the optional tail are never assigned and [FinalPublicIP] keeps its
    value.  This holds however the run ends. *)
Theorem Run_without_autoConfigure_never_applies_nor_probes
    (E : Env) (d : Deployment) (w : World) :
  AutoConfigure d = false ->
  exists t,
    trace (world (snd (Run E d w))) = trace w ++ EvHttpGet checkip :: t
    /\ count is_osxaddvpn t = O
    /\ count is_httpget t = O
    /\ statuses t ⊆ ["waiting for ssh"]
    /\ FinalPublicIP (self (snd (Run E d w))) = FinalPublicIP d.
Proof.
  intros Hauto.
  destruct (Run E d w) as [o p] eqn:H. cbn [fst snd].
  run_all H.
  all: try congruence.
  all: eexists; split; [reflexivity|].
  all: trace_norm.
  all: split_and!; try done; set_solver.
Qed.

Lemma Run_without_autoConfigure_never_applies_nor_probes_witness :
  let E := Scenario.env [Scenario.ip "1.2.3.4"] Scenario.dial_ok
             Scenario.write_ok Scenario.files_ok Scenario.clock in
  let r := Run E (Scenario.deployment false) Scenario.empty_world in
  exists t,
    trace (world (snd r)) = [] ++ EvHttpGet checkip :: t
    /\ count is_osxaddvpn t = O
    /\ count is_httpget t = O
    /\ statuses t ⊆ ["waiting for ssh"]
    /\ FinalPublicIP (self (snd r)) = "".
Proof.
  intros E r.
  apply (Run_without_autoConfigure_never_applies_nor_probes
           E (Scenario.deployment false) Scenario.empty_world).
  reflexivity.
Defined.

(** C1 fails on the code: [d.Status = "done"] sits inside the
    [if d.AutoConfigure] block.  A run with [AutoConfigure] off that
    succeeds shows [pending auth] and [waiting for ssh] only; [done] is
    never assigned and the status field still reads [waiting for ssh] when
    [Run] has returned [nil]. *)
Lemma Run_without_autoConfigure_succeeds_short_of_done :
  let E := Scenario.env [Scenario.ip "1.2.3.4"] Scenario.dial_ok
             Scenario.write_ok Scenario.files_ok Scenario.clock in
  let d := Scenario.deployment false in
  let r := Run E d Scenario.empty_world in
  fst r = Returned None
  /\ observed_statuses d Scenario.empty_world (snd r)
     = ["pending auth"; "waiting for ssh"]
  /\ observed_statuses d Scenario.empty_world (snd r) <> StatusOrder
  /\ Status (self (snd r)) = "waiting for ssh".
Proof. vm_compute. split_and!; done. Qed.

(** X24: started on a deployment in status [pending auth], the statuses
    observed over a run never regress: they form a subsequence of the
    fixed order, however the run ends.  A successful run shows
    [pending auth] and then [waiting for ssh] first, and with
    [AutoConfigure] on it shows all five values in order and ends in
    [done]. *)
Theorem Run_statuses_follow_the_fixed_order
    (E : Env) (d : Deployment) (w : World) :
  Status d = "pending auth" ->
  sublist (observed_statuses d w (snd (Run E d w))) StatusOrder
  /\ (fst (Run E d w) = Returned None ->
      (exists rest,
         observed_statuses d w (snd (Run E d w))
         = "pending auth" :: "waiting for ssh" :: rest)
      /\ (AutoConfigure d = true ->
          observed_statuses d w (snd (Run E d w)) = StatusOrder
          /\ Status (self (snd (Run E d w))) = "done")).
Proof.
  destruct (Run E d w) as [o p] eqn:H. cbn [fst snd].
  run_all H.
  all: intros Hstatus.
  all: unfold observed_statuses, new_events; cbn [world trace].
  all: rewrite drop_app_length, Hstatus; trace_norm.
  all: split;
    [ unfold StatusOrder;
      repeat first [apply sublist_nil | apply sublist_skip | apply sublist_cons]
    | intros Hok; try discriminate Hok ].
  all: split; [eexists; reflexivity | intros Hauto; try congruence].
  all: done.
Qed.

Lemma Run_statuses_follow_the_fixed_order_witness :
  let E := Scenario.env [Scenario.ip "1.2.3.4"; Scenario.ip "5.6.7.8";
                         Scenario.ip "5.6.7.8"]
             Scenario.dial_ok Scenario.write_ok Scenario.files_ok
             Scenario.clock in
  let d := Scenario.deployment true in
  let r := Run E d Scenario.empty_world in
  sublist (observed_statuses d Scenario.empty_world (snd r)) StatusOrder
  /\ (fst r = Returned None ->
      (exists rest,
         observed_statuses d Scenario.empty_world (snd r)
         = "pending auth" :: "waiting for ssh" :: rest)
      /\ (AutoConfigure d = true ->
          observed_statuses d Scenario.empty_world (snd r) = StatusOrder
          /\ Status (self (snd r)) = "done")).
Proof.
  intros E d r.
  apply (Run_statuses_follow_the_fixed_order E d Scenario.empty_world).
  reflexivity.
Defined.

Lemma waitForSSH_first_success E ip w j :
  (j < 15)%nat ->
  (forall i, (i < j)%nat ->
     net_Dial E (count is_dial (trace w) + i) "tcp" (host_port ip 22) <> None) ->
  net_Dial E (count is_dial (trace w) + j) "tcp" (host_port ip 22) = None ->
  waitForSSH E ip w =
    (Val None,
     mkWorld (fs w)
       (trace w ++ failed_attempts (host_port ip 22) j
          ++ [EvDial "tcp" (host_port ip 22); EvConnClose (host_port ip 22)])).
Proof.
  intros Hj Hfail Hok. unfold waitForSSH, waitForPort, bind.
  by rewrite (waitForPort_loop_first_success E ip 22 15 j).
Qed.

(** C5: when the run gets as far as the retrieval of the VPN files, the
    password and the first artifact (the private key) are fetched, the key
    is written, and the fetch of the second artifact (the CA certificate)
    fails with [e], then [Run] returns [e]; the file system differs from
    the initial one by the private key file alone; and the failed fetch is
    the last thing the run does: the server certificate is never asked for
    and nothing else is written. *)
Theorem Run_second_artifact_fetch_failure
    (E : Env) (d : Deployment) (w : World)
    (id : Z) (ip : string) (j : nat) (pw key junk : string) (e : error) :
  reaches_artifacts E d w id ip j ->
  sshclient_GetFileFromContainer E (sshClient d) "core" ip "dosxvpn"
    remote_password = (pw, None) ->
  sshclient_GetFileFromContainer E (sshClient d) "core" ip "dosxvpn"
    remote_private_key = (key, None) ->
  ioutil_WriteFile E (count is_write (trace w))
    (config_path E FilenamePrivateKey (Name d)) = None ->
  sshclient_GetFileFromContainer E (sshClient d) "core" ip "dosxvpn"
    remote_ca_cert = (junk, Some e) ->
  fst (Run E d w) = Returned (Some e)
  /\ fs (world (snd (Run E d w)))
     = <[config_path E FilenamePrivateKey (Name d) := key]> (fs w)
  /\ new_events w (snd (Run E d w)) =
       [EvHttpGet checkip;
        EvCreateDroplet (Name d) (Region d) DropletSize (userData d) DropletImage;
        EvWaitForDropletIP id;
        EvCreateFirewall (Name d) id;
        EvStatus "waiting for ssh"]
       ++ failed_attempts (host_port ip 22) j
       ++ [EvDial "tcp" (host_port ip 22);
           EvConnClose (host_port ip 22);
           EvSshRun "core" ip wait_for_vpn;
           EvGetFile "core" ip "dosxvpn" remote_password;
           EvGetFile "core" ip "dosxvpn" remote_private_key;
           EvMkdirAll (FilepathDosxvpnConfigDir E);
           EvWriteFile (config_path E FilenamePrivateKey (Name d)) key;
           EvGetFile "core" ip "dosxvpn" remote_ca_cert].
Proof.
  intros (Hcreate & Hip & Hfw & Hj & Hrefused & Hopen & Hwait) Hpw Hkey Hwrite Hca.
  destruct (sshclient_Run E (sshClient d) "core" ip wait_for_vpn)
    as [out err] eqn:Hrun.
  simpl in Hwait. subst err.
  destruct (Run E d w) as [o p] eqn:H. cbn [fst snd].
  run_unfold H. run_step H.
  run_cbn H. rewrite Hcreate in H.
  run_cbn H. rewrite Hip in H.
  run_cbn H. rewrite Hfw in H.
  run_cbn H.
  rewrite (waitForSSH_first_success E ip _ j) in H; [|done|..].
  - run_cbn H. rewrite Hrun in H.
    run_cbn H. rewrite Hpw in H.
    run_cbn H. rewrite Hkey in H.
    run_cbn H. rewrite saveConfig_eq in H.
    run_cbn H. rewrite Hca in H.
    run_cbn H.
    rewrite !count_app, !count_cons, !count_nil in H.
    rewrite (count_port_events is_write (failed_attempts (host_port ip 22) j))
      in H by (by intros [] || apply failed_attempts_port_events).
    cbn [is_write Nat.add] in H. rewrite !Nat.add_0_r, Hwrite in H.
    apply pair_equal_spec in H. destruct H as [<- <-].
    split_and!; [done..|].
    unfold new_events. cbn [world trace].
    rewrite <- !app_assoc. by rewrite drop_app_length.
  - intros i Hi. cbn [trace]. rewrite !count_app, !count_cons, !count_nil.
    cbn [is_dial Nat.add]. rewrite !Nat.add_0_r. by apply Hrefused.
  - cbn [trace]. rewrite !count_app, !count_cons, !count_nil.
    cbn [is_dial Nat.add]. by rewrite !Nat.add_0_r.
Qed.

Lemma Run_second_artifact_fetch_failure_witness :
  let E := Scenario.env [Scenario.ip "1.2.3.4"] (Scenario.dial_ok_at 2)
             Scenario.write_ok Scenario.files_second_fails Scenario.clock in
  let d := Scenario.deployment false in
  let r := Run E d Scenario.empty_world in
  fst r = Returned (Some "ssh: no such file")
  /\ fs (world (snd r))
     = {[ "/Users/me/.dosxvpn/dosxvpn-129-nyc1.client.cert.p12"
          := "content of /etc/ipsec.d/client.cert.p12" ]}
  /\ count is_getfile (trace (world (snd r))) = 3%nat
  /\ count is_write (trace (world (snd r))) = 1%nat.
Proof.
  intros E d r. subst r.
  destruct (Run_second_artifact_fetch_failure
              E d Scenario.empty_world 42 "10.0.0.1" 1
              "content of /etc/ipsec.d/client.cert.p12.password"
              "content of /etc/ipsec.d/client.cert.p12" "" "ssh: no such file")
    as (Hret & Hfs & Hev).
  - unfold reaches_artifacts. split_and!; try reflexivity.
    + lia.
    + intros i Hi. destruct i as [|i]; [discriminate|lia].
  - reflexivity.
  - reflexivity.
  - reflexivity.
  - reflexivity.
  - split_and!.
    + exact Hret.
    + rewrite Hfs. vm_compute. reflexivity.
    + change (trace (world (snd (Run E d Scenario.empty_world))))
        with (new_events Scenario.empty_world (snd (Run E d Scenario.empty_world))).
      rewrite Hev. vm_compute. reflexivity.
    + change (trace (world (snd (Run E d Scenario.empty_world))))
        with (new_events Scenario.empty_world (snd (Run E d Scenario.empty_world))).
      rewrite Hev. vm_compute. reflexivity.
Defined.

(** C6 fails on the code: [Run] drops what [saveConfig] returns.  Here the
    write of the first artifact fails; the run goes on to fetch the two
    other artifacts, writes the four other files and returns [nil], with
    no private key file on disk. *)
Lemma Run_ignores_write_failure :
  let E := Scenario.env [Scenario.ip "1.2.3.4"] Scenario.dial_ok
             Scenario.write_first_fails Scenario.files_ok Scenario.clock in
  let d := Scenario.deployment false in
  let r := Run E d Scenario.empty_world in
  fst (saveConfig E "key" (config_path E FilenamePrivateKey (Name d))
         Scenario.empty_world)
    = Val ("", Some "permission denied")
  /\ fst r = Returned None
  /\ fs (world (snd r)) !! config_path E FilenamePrivateKey (Name d) = None
  /\ count is_getfile (trace (world (snd r))) = 4%nat
  /\ count is_write (trace (world (snd r))) = 5%nat
  /\ size (fs (world (snd r))) = 4%nat.
Proof. vm_compute. split_and!; reflexivity. Qed.

(** C2 fails on the code: once a probe of the loop has shown a changed
    address, the loop asks the endpoint again and stores that second
    answer.  With the baseline [1.2.3.4] and the loop's probes answered
    [1.2.3.4], [1.2.3.4], [5.6.7.8] and then nothing more, the endpoint is
    asked five times in all (four times by the loop) and [FinalPublicIP]
    stays empty. *)
Lemma Run_convergence_probes_again_after_change :
  let E := Scenario.env [Scenario.ip "1.2.3.4"; Scenario.ip "1.2.3.4";
                         Scenario.ip "1.2.3.4"; Scenario.ip "5.6.7.8"]
             Scenario.dial_ok Scenario.write_ok Scenario.files_ok
             Scenario.clock in
  let r := Run E (Scenario.deployment true) Scenario.empty_world in
  fst r = Returned None
  /\ InitialPublicIP (self (snd r)) = "1.2.3.4"
  /\ probe_answer E 3 = ("5.6.7.8", None)
  /\ count is_httpget (trace (world (snd r))) = 5%nat
  /\ FinalPublicIP (self (snd r)) = "".
Proof. vm_compute. split_and!; reflexivity. Qed.

(** The same run whatever the endpoint answers to the extra probe: it is
    asked a fifth time, and that answer, not the third of the loop, ends
    up in [FinalPublicIP]. *)
Lemma Run_convergence_stores_the_extra_probe (extra : HttpResult) :
  let E := Scenario.env [Scenario.ip "1.2.3.4"; Scenario.ip "1.2.3.4";
                         Scenario.ip "1.2.3.4"; Scenario.ip "5.6.7.8"; extra]
             Scenario.dial_ok Scenario.write_ok Scenario.files_ok
             Scenario.clock in
  let r := Run E (Scenario.deployment true) Scenario.empty_world in
  count is_httpget (trace (world (snd r))) = 5%nat
  /\ FinalPublicIP (self (snd r)) = fst (probe_answer E 4).
Proof. destruct extra; vm_compute; split; reflexivity. Qed.

(** In any environment: a turn of the loop whose probe shows a non-empty
    address other than the baseline probes once more, stores the answer of
    that second probe, and ends the loop. *)
Lemma convergence_loop_probes_twice_on_change E n ip0 p newIP :
  probe_answer E (count is_httpget (trace (world p))) = (newIP, None) ->
  newIP <> "" -> newIP <> ip0 ->
  convergence_loop E (S n) ip0 p =
    (Val tt,
     mkProc
       (set_FinalPublicIP
          (fst (probe_answer E (S (count is_httpget (trace (world p))))))
          (self p))
       (mkWorld (fs (world p))
          (trace (world p)
             ++ [EvSleep (Second * 5); EvHttpGet checkip; EvHttpGet checkip]))).
Proof.
  intros Hans Hne Hne0.
  cbn [convergence_loop]. unfold bind at 1. unfold io at 1, time_Sleep, emit.
  cbn [world self fs trace]. unfold bind at 1. unfold io at 1.
  rewrite getPublicIp_eq. cbn [world self fs trace].
  rewrite count_app, count_cons, count_nil. cbn [is_httpget Nat.add].
  rewrite Nat.add_0_r, Hans. cbn [is_nil andb].
  apply String.eqb_neq in Hne, Hne0. rewrite Hne, Hne0. cbn [negb andb].
  unfold bind at 1. unfold io at 1. rewrite getPublicIp_eq.
  cbn [world self fs trace].
  rewrite !count_app, !count_cons, !count_nil. cbn [is_httpget Nat.add].
  rewrite Nat.add_0_r, Nat.add_1_r.
  destruct (probe_answer E (S _)) as [newIP' err'].
  unfold bind, assign, ret. cbn [world self fs trace fst].
  by rewrite <- !app_assoc.
Qed.

(** ** [randomString] and [New] *)

Lemma length_substring_0 (s : string) : forall n,
  (n <= String.length s)%nat -> String.length (String.substring 0 n s) = n.
Proof.
  induction s as [|c s IH]; intros [|n] Hn; simpl in *; try done; try lia.
  rewrite IH; [done|lia].
Qed.

Lemma append_eq_same_length (a : string) : forall b c d,
  String.length a = String.length b -> a +:+ c = b +:+ d -> a = b /\ c = d.
Proof.
  induction a as [|x a IH]; intros [|y b] c d Hlen Heq; simpl in *; try done.
  injection Heq as -> Heq. destruct (IH b c d) as [-> ->]; [lia|done|done].
Qed.

Lemma append_eq_inv_l (a b c : string) : a +:+ b = a +:+ c -> b = c.
Proof. intros H. by destruct (append_eq_same_length a a b c). Qed.

(** What a call of [randomString 3] does. *)
Lemma randomString_3_eq E w :
  randomString E 3 w =
    (if (3 <=? String.length
               (pretty (rand_Int_seeded E
                          (time_Now_UnixNano E (count is_now (trace w))))))%nat
     then Val (token_at E (count is_now (trace w)))
     else Panic "slice bounds out of range",
     mkWorld (fs w) (trace w ++ [EvNow])).
Proof.
  unfold randomString, time_Now, slice_to, token_at, bind, calls, emit, ret, panic.
  cbn beta iota. set (s := pretty _).
  destruct (Nat.leb_spec 3 (String.length s)) as [Hle|Hlt].
  - replace (Z.leb 3 (Z.of_nat (String.length s))) with true
      by (symmetry; apply Z.leb_le; lia).
    done.
  - replace (Z.leb 3 (Z.of_nat (String.length s))) with false
      by (symmetry; apply Z.leb_gt; lia).
    done.
Qed.

(** A call of [New] that returns a deployment has named it after the token
    of the clock reading it made, and has read the clock once. *)
Lemma New_success E token region auto w d w' :
  New E token region auto w = (Val (Some d, None), w') ->
  Name d = DropletBaseName +:+ "-" +:+ token_at E (count is_now (trace w))
             +:+ "-" +:+ region
  /\ String.length (token_at E (count is_now (trace w))) = 3%nat
  /\ count is_now (trace w') = S (count is_now (trace w))
  /\ Status d = "pending auth".
Proof.
  unfold New, bind. rewrite randomString_3_eq.
  set (k := count is_now (trace w)).
  destruct (Nat.leb_spec 3 (String.length
              (pretty (rand_Int_seeded E (time_Now_UnixNano E k))))) as [Hle|Hlt];
    [|done].
  unfold sshNew, bind, calls, emit, ret. cbn [fs trace].
  destruct (sshclient_New E _) as [client [e|]]; [done|].
  destruct (services_GenerateCloudConfig E _ _) as [data [e|]]; [done|].
  intros [= <- <-]. cbn [Name Status set_userData set_sshClient trace].
  split_and!; [done| |  |done].
  - unfold token_at. by apply length_substring_0.
  - rewrite !count_app, !count_cons, !count_nil. simpl. lia.
Qed.

(** C9, as stated, fails: two successive calls of [New] with the same
    arguments that read the same value off the clock seed the generator
    alike and return the same name. *)
Lemma New_twice_same_name :
  let E := Scenario.env [] Scenario.dial_ok Scenario.write_ok
             Scenario.files_ok Scenario.clock_coarse in
  let r1 := New E "tok" "nyc1" true Scenario.empty_world in
  let r2 := New E "tok" "nyc1" true (snd r1) in
  exists d1 d2,
    fst r1 = Val (Some d1, None)
    /\ fst r2 = Val (Some d2, None)
    /\ Name d1 = Name d2.
Proof.
  intros E r1 r2.
  exists (Scenario.deployment true), (Scenario.deployment true).
  split_and!; vm_compute; reflexivity.
Qed.

(** C9, amended: two successive calls of [New] with the same arguments
    return the names [dosxvpn-<token>-<region>], where each token is the
    first three characters of the decimal value the generator gives for
    the clock reading of that call; the names differ exactly when the two
    tokens differ, and they are equal when both calls read the same value
    off the clock. *)
Theorem New_names_differ_iff_tokens_differ
    (E : Env) (token region : string) (auto : bool)
    (w w1 w2 : World) (d1 d2 : Deployment) :
  New E token region auto w = (Val (Some d1, None), w1) ->
  New E token region auto w1 = (Val (Some d2, None), w2) ->
  let k := count is_now (trace w) in
  Name d1 = "dosxvpn-" +:+ token_at E k +:+ "-" +:+ region
  /\ Name d2 = "dosxvpn-" +:+ token_at E (S k) +:+ "-" +:+ region
  /\ (Name d1 <> Name d2 <-> token_at E k <> token_at E (S k))
  /\ (time_Now_UnixNano E k = time_Now_UnixNano E (S k) -> Name d1 = Name d2).
Proof.
  intros H1 H2 k.
  destruct (New_success _ _ _ _ _ _ _ H1) as (Hn1 & Hl1 & Hk1 & _).
  destruct (New_success _ _ _ _ _ _ _ H2) as (Hn2 & Hl2 & _ & _).
  rewrite Hk1 in Hn2, Hl2. fold k in Hn1, Hl1, Hn2, Hl2.
  split_and!; [exact Hn1|exact Hn2| |].
  - rewrite Hn1, Hn2. split.
    + intros Hne Heq. apply Hne. by rewrite Heq.
    + intros Hne Heq. apply Hne.
      apply append_eq_inv_l in Heq.
      apply append_eq_inv_l in Heq.
      by apply append_eq_same_length in Heq as [? _]; [|congruence].
  - intros Hclock. rewrite Hn1, Hn2. unfold token_at. by rewrite Hclock.
Qed.

Lemma New_names_differ_iff_tokens_differ_witness :
  let E := Scenario.env [] Scenario.dial_ok Scenario.write_ok
             Scenario.files_ok Scenario.clock in
  let d1 := Scenario.deployment_named "dosxvpn-129-nyc1" true in
  let d2 := Scenario.deployment_named "dosxvpn-765-nyc1" true in
  Name d1 = "dosxvpn-" +:+ token_at E 0 +:+ "-" +:+ "nyc1"
  /\ Name d2 = "dosxvpn-" +:+ token_at E 1 +:+ "-" +:+ "nyc1"
  /\ (Name d1 <> Name d2 <-> token_at E 0 <> token_at E 1)
  /\ (time_Now_UnixNano E 0%nat = time_Now_UnixNano E 1%nat -> Name d1 = Name d2).
Proof.
  intros E d1 d2.
  apply (New_names_differ_iff_tokens_differ E "tok" "nyc1" true
           Scenario.empty_world
           (snd (New E "tok" "nyc1" true Scenario.empty_world))
           (snd (New E "tok" "nyc1" true
                   (snd (New E "tok" "nyc1" true Scenario.empty_world))))
           d1 d2).
  - vm_compute. reflexivity.
  - vm_compute. reflexivity.
Defined.

(** *** Three characters cannot tell all clock readings apart *)

Lemma elem_of_all_ascii (c : Ascii.ascii) : c ∈ all_ascii.
Proof.
  unfold all_ascii. apply list_elem_of_fmap.
  exists (Ascii.nat_of_ascii c). split.
  - by rewrite Ascii.ascii_nat_embedding.
  - apply elem_of_seq. pose proof (Ascii.nat_ascii_bounded c). lia.
Qed.

Lemma strings_upto_S (n : nat) :
  strings_upto (S n)
  = "" :: (c ← all_ascii; s ← strings_upto n; [String c s]).
Proof. reflexivity. Qed.

Lemma elem_of_strings_upto (n : nat) : forall s,
  (String.length s <= n)%nat -> s ∈ strings_upto n.
Proof.
  induction n as [|n IH]; intros [|c s] Hlen; cbn [String.length] in Hlen.
  - apply list_elem_of_here.
  - lia.
  - rewrite strings_upto_S. apply list_elem_of_here.
  - rewrite strings_upto_S.
    apply list_elem_of_further, list_elem_of_bind.
    exists c. split; [|apply elem_of_all_ascii].
    apply list_elem_of_bind. exists s. split.
    + apply list_elem_of_here.
    + apply IH. lia.
Qed.

Lemma length_substring_le (s : string) : forall n,
  (String.length (String.substring 0 n s) <= n)%nat.
Proof.
  induction s as [|c s IH]; intros [|n]; simpl; try lia.
  specialize (IH n). lia.
Qed.

(** Whatever the generator, two different seeds give the same token. *)
Lemma tokens_collide (gen : Z -> Z) :
  exists s1 s2 : Z,
    s1 <> s2
    /\ String.substring 0 3 (pretty (gen s1)) = String.substring 0 3 (pretty (gen s2)).
Proof.
  pose (tok := fun k : nat => String.substring 0 3 (pretty (gen (Z.of_nat k)))).
  destruct (list_pigeonhole (tok <$> seq 0 (S (length (strings_upto 3))))
              (strings_upto 3)) as (i & j & x & Hij & Hi & Hj).
  - intros s [k [-> _]]%list_elem_of_fmap.
    apply elem_of_strings_upto, length_substring_le.
  - rewrite length_fmap, length_seq. lia.
  - apply list_lookup_fmap_Some in Hi as (ki & -> & [-> _]%lookup_seq).
    apply list_lookup_fmap_Some in Hj as (kj & Heq & [-> _]%lookup_seq).
    exists (Z.of_nat (0 + i)), (Z.of_nat (0 + j)). split; [lia|done].
Qed.

(** Hence, whatever the generator, there are two different clock readings
    for which two successive calls of [New] that succeed return the same
    name. *)
Lemma New_names_collide_for_some_clock_readings (E : Env) :
  exists s1 s2 : Z,
    s1 <> s2
    /\ forall token region auto w d1 w1 d2 w2,
         let k := count is_now (trace w) in
         let E' := with_clock E (fun i => if (i =? k)%nat then s1 else s2) in
         New E' token region auto w = (Val (Some d1, None), w1) ->
         New E' token region auto w1 = (Val (Some d2, None), w2) ->
         Name d1 = Name d2.
Proof.
  destruct (tokens_collide (rand_Int_seeded E)) as (s1 & s2 & Hne & Htok).
  exists s1, s2. split; [done|]. intros token region auto w d1 w1 d2 w2 k E' H1 H2.
  destruct (New_success _ _ _ _ _ _ _ H1) as (-> & _ & Hk & _).
  destruct (New_success _ _ _ _ _ _ _ H2) as (-> & _ & _ & _).
  rewrite Hk. fold k. unfold token_at, E'. cbn [with_clock rand_Int_seeded time_Now_UnixNano].
  rewrite Nat.eqb_refl.
  replace (S k =? k)%nat with false by (symmetry; apply Nat.eqb_neq; lia).
  by rewrite Htok.
Qed.

(** * Further properties of the package *)

(** ** More on the helpers *)

Lemma length_append (a b : string) :
  String.length (a +:+ b) = (String.length a + String.length b)%nat.
Proof. induction a as [|c a IH]; simpl; [done|by rewrite IH]. Qed.

Lemma append_eq_inv_r (a b c : string) : a +:+ c = b +:+ c -> a = b.
Proof.
  intros H. apply (append_eq_same_length a b c c); [|done].
  apply (f_equal String.length) in H. rewrite !length_append in H. lia.
Qed.

Lemma append_empty (a b : string) : a +:+ b = "" <-> a = "" /\ b = "".
Proof.
  split; [|by intros [-> ->]].
  destruct a; [done|discriminate].
Qed.

(** X1: [userHomeDir] is empty exactly when the variables of the platform
    give nothing: on windows [HOMEDRIVE], [HOMEPATH] and [USERPROFILE] all
    empty ([HOME] is not looked at), elsewhere [HOME] empty. *)
Theorem userHomeDir_empty_iff (E : Env) :
  userHomeDir E = ""
  <-> (GOOS E = "windows" /\ Getenv E "HOMEDRIVE" = ""
       /\ Getenv E "HOMEPATH" = "" /\ Getenv E "USERPROFILE" = "")
      \/ (GOOS E <> "windows" /\ Getenv E "HOME" = "").
Proof.
  unfold userHomeDir.
  destruct (String.eqb_spec (GOOS E) "windows") as [Hw|Hw].
  - destruct (String.eqb_spec (Getenv E "HOMEDRIVE" +:+ Getenv E "HOMEPATH") "")
      as [Hh|Hh].
    + apply append_empty in Hh as [H1 H2]. intuition congruence.
    + split; [done|]. intros [(_ & H1 & H2 & _)|[? _]]; [|done].
      destruct Hh. by rewrite H1, H2.
  - intuition congruence.
Qed.

(** X2: for one deployment name the five file names are pairwise
    different, and each template sends different deployment names to
    different file names. *)
Theorem config_filenames_distinct (name name' : string) :
  NoDup (config_filenames name)
  /\ (name <> name' ->
      Forall2 (fun f f' => f <> f') (config_filenames name) (config_filenames name')).
Proof.
  split.
  - unfold config_filenames, FilenameAppleConfig, FilenameAndroidConfig,
      FilenamePrivateKey, FilenameCACert, FilenameServerCert.
    repeat (apply NoDup_cons; split);
      [..|apply NoDup_nil_2];
      rewrite ?not_elem_of_cons; split_and?; try apply not_elem_of_nil;
      by intros [=]%append_eq_inv_l.
  - intros Hne.
    unfold config_filenames, FilenameAppleConfig, FilenameAndroidConfig,
      FilenamePrivateKey, FilenameCACert, FilenameServerCert.
    repeat (apply Forall2_cons; split); [..|apply Forall2_nil_2];
      by intros ?%append_eq_inv_r.
Qed.

Lemma config_filenames_distinct_witness :
  "a" <> "b"
  /\ Forall2 (fun f f' => f <> f') (config_filenames "a") (config_filenames "b").
Proof.
  assert ("a" <> "b") as H by discriminate.
  split; [exact H|].
  exact (proj2 (config_filenames_distinct "a" "b") H).
Defined.

Lemma randomString_eq E n w :
  randomString E n w =
    (let s := pretty (rand_Int_seeded E
                        (time_Now_UnixNano E (count is_now (trace w)))) in
     if Z.leb 0 n && Z.leb n (Z.of_nat (String.length s))
     then Val (String.substring 0 (Z.to_nat n) s)
     else Panic "slice bounds out of range",
     mkWorld (fs w) (trace w ++ [EvNow])).
Proof.
  unfold randomString, time_Now, slice_to, bind, calls, emit, ret, panic.
  cbn beta iota zeta.
  by destruct (Z.leb 0 n && Z.leb n _).
Qed.

(** X3: a call [randomString(n)] reads the clock once and does nothing
    else; it panics exactly when [n] is negative or exceeds the number of
    characters of the decimal value drawn, and otherwise returns the first
    [n] characters of that value, a string of length [n]. *)
Theorem randomString_prefix_or_panic (E : Env) (n : Z) (w : World) :
  let s := pretty (rand_Int_seeded E
                     (time_Now_UnixNano E (count is_now (trace w)))) in
  snd (randomString E n w) = mkWorld (fs w) (trace w ++ [EvNow])
  /\ (fst (randomString E n w) = Panic "slice bounds out of range"
      <-> n < 0 \/ Z.of_nat (String.length s) < n)
  /\ (fst (randomString E n w) = Val (String.substring 0 (Z.to_nat n) s)
      /\ String.length (String.substring 0 (Z.to_nat n) s) = Z.to_nat n
      <-> 0 <= n <= Z.of_nat (String.length s)).
Proof.
  intros s. rewrite randomString_eq. fold s. cbn [fst snd].
  destruct (Z.leb_spec 0 n) as [H0|H0];
    destruct (Z.leb_spec n (Z.of_nat (String.length s))) as [Hn|Hn];
    cbn [andb]; split_and!; try done; try (split; [done|lia]);
    try (split; [lia|done]); try (split; [intros [[=] _]|lia]).
  split; [lia|]. intros _. split; [done|]. apply length_substring_0. lia.
Qed.

Lemma pretty_length_below_100 (v : Z) :
  0 <= v < 100 -> (String.length (pretty v) < 3)%nat.
Proof.
  intros H. rewrite <- (Z2Nat.id v) by lia.
  assert (Z.to_nat v < 100)%nat as Hn by lia.
  revert Hn. generalize (Z.to_nat v). intros n.
  do 100 (destruct n as [|n]; [intros _; vm_compute; lia|]).
  lia.
Qed.

(** X4: when the value drawn from the generator is below 100, its decimal
    form has fewer than three characters and [New] panics on the slice in
    [randomString(3)], right after reading the clock: no key pair is made
    and nothing is returned. *)
Theorem New_panics_when_draw_below_100
    (E : Env) (token region : string) (auto : bool) (w : World) :
  0 <= rand_Int_seeded E (time_Now_UnixNano E (count is_now (trace w))) < 100 ->
  New E token region auto w =
    (Panic "slice bounds out of range", mkWorld (fs w) (trace w ++ [EvNow])).
Proof.
  intros Hdraw. apply pretty_length_below_100 in Hdraw.
  unfold New, bind. rewrite randomString_3_eq.
  destruct (Nat.leb_spec 3 (String.length
              (pretty (rand_Int_seeded E
                         (time_Now_UnixNano E (count is_now (trace w)))))));
    [lia|done].
Qed.

Lemma New_panics_when_draw_below_100_witness :
  let E := with_generator
             (Scenario.env [] Scenario.dial_ok Scenario.write_ok
                Scenario.files_ok Scenario.clock)
             (fun _ => 42) in
  New E "tok" "nyc1" true Scenario.empty_world =
    (Panic "slice bounds out of range", mkWorld ∅ [EvNow]).
Proof.
  intros E.
  apply (New_panics_when_draw_below_100 E "tok" "nyc1" true Scenario.empty_world).
  simpl. lia.
Defined.

(** X5: [New] returns a deployment or an error, never both and never
    neither: the error is the one of [sshclient.New] or, when the key pair
    was made, the one of [services.GenerateCloudConfig]; the only other
    way out is the panic of [randomString].  It reads the clock once,
    makes at most one key pair, and leaves the file system alone. *)
Theorem New_returns_deployment_xor_error
    (E : Env) (token region : string) (auto : bool) (w : World) :
  let r := New E token region auto w in
  let key := sshclient_New E (count is_sshnew (trace w)) in
  let cfg := services_GenerateCloudConfig E (fst key)
               ["coreos"; "dosxvpn"; "pihole"] in
  fs (snd r) = fs w
  /\ ((fst r = Panic "slice bounds out of range"
       /\ trace (snd r) = trace w ++ [EvNow])
      \/ (trace (snd r) = trace w ++ [EvNow; EvSshNew]
          /\ ((exists e, snd key = Some e /\ fst r = Val (None, Some e))
              \/ (exists e, snd key = None /\ snd cfg = Some e
                            /\ fst r = Val (None, Some e))
              \/ (exists d, snd key = None /\ snd cfg = None
                            /\ fst r = Val (Some d, None))))).
Proof.
  intros r key cfg. subst r. unfold New, bind. rewrite randomString_3_eq.
  destruct (Nat.leb_spec 3 (String.length
              (pretty (rand_Int_seeded E
                         (time_Now_UnixNano E (count is_now (trace w)))))))
    as [Hle|Hlt]; [|by split; [|left]].
  unfold sshNew, bind, calls, emit, ret. cbn [fs trace].
  rewrite !count_app, !count_cons, !count_nil. cbn [is_sshnew Nat.add].
  rewrite Nat.add_0_r. fold key.
  destruct key as [client [e|]] eqn:Hkey; cbn [fst snd].
  - split; [done|]. right. split; [by rewrite <- app_assoc|]. left. by exists e.
  - cbn [set_sshClient sshClient services] in *. subst cfg. cbn [fst].
    destruct (services_GenerateCloudConfig E client _) as [data [e|]];
      cbn [fst snd].
    + split; [done|]. right. split; [by rewrite <- app_assoc|].
      right. left. by exists e.
    + split; [done|]. right. split; [by rewrite <- app_assoc|].
      right. right. by eexists.
Qed.

(** X6: the deployment a successful [New] returns carries the arguments
    (token, region, flag), the three services, the authorized key and the
    cloud config made from that key, the status [pending auth], and
    nothing yet of what a run fills in; its name is the base name, a token
    of three characters and the region, joined by dashes. *)
Theorem New_initial_state
    (E : Env) (token region : string) (auto : bool) (w w' : World)
    (d : Deployment) :
  New E token region auto w = (Val (Some d, None), w') ->
  let key := fst (sshclient_New E (count is_sshnew (trace w))) in
  Token d = token /\ Region d = region /\ AutoConfigure d = auto
  /\ doClient d = token /\ sshClient d = key
  /\ services d = ["coreos"; "dosxvpn"; "pihole"]
  /\ userData d = fst (services_GenerateCloudConfig E key (services d))
  /\ Status d = "pending auth"
  /\ dropletIP d = "" /\ dropletID d = 0 /\ VpnPassword d = ""
  /\ VPNIPAddress d = "" /\ InitialPublicIP d = "" /\ FinalPublicIP d = ""
  /\ String.length (Name d) = (12 + String.length region)%nat.
Proof.
  unfold New, bind. rewrite randomString_3_eq.
  destruct (Nat.leb_spec 3 (String.length
              (pretty (rand_Int_seeded E
                         (time_Now_UnixNano E (count is_now (trace w)))))))
    as [Hle|Hlt]; [|done].
  unfold sshNew, bind, calls, emit, ret. cbn [fs trace].
  rewrite !count_app, !count_cons, !count_nil. cbn [is_sshnew Nat.add].
  rewrite Nat.add_0_r.
  destruct (sshclient_New E _) as [client [e|]]; [done|].
  cbn [set_sshClient sshClient services].
  destruct (services_GenerateCloudConfig E client _) as [data [e|]] eqn:Hcfg;
    [done|].
  intros [= <- <-]. cbn. rewrite Hcfg. split_and!; try done.
  unfold DropletBaseName, token_at. rewrite !length_append, length_substring_0 by done.
  simpl. lia.
Qed.

Lemma New_initial_state_witness :
  let E := Scenario.env [] Scenario.dial_ok Scenario.write_ok
             Scenario.files_ok Scenario.clock in
  let d := Scenario.deployment true in
  Token d = "tok" /\ Region d = "nyc1" /\ AutoConfigure d = true
  /\ doClient d = "tok" /\ sshClient d = "ssh-rsa AAAA"
  /\ services d = ["coreos"; "dosxvpn"; "pihole"]
  /\ userData d = "#cloud-config"
  /\ Status d = "pending auth"
  /\ dropletIP d = "" /\ dropletID d = 0 /\ VpnPassword d = ""
  /\ VPNIPAddress d = "" /\ InitialPublicIP d = "" /\ FinalPublicIP d = ""
  /\ String.length (Name d) = 16%nat.
Proof.
  intros E d.
  apply (New_initial_state E "tok" "nyc1" true Scenario.empty_world
           (snd (New E "tok" "nyc1" true Scenario.empty_world)) d).
  vm_compute. reflexivity.
Defined.

(** X7: a [saveConfig] whose write succeeds first makes sure of the
    configuration directory, then writes; it returns the path and no
    error, the file then holds exactly the content given, and every other
    file is as before. *)
Theorem saveConfig_writes_the_content
    (E : Env) (content path : string) (w : World) :
  ioutil_WriteFile E (count is_write (trace w)) path = None ->
  fst (saveConfig E content path w) = Val (path, None)
  /\ fs (snd (saveConfig E content path w)) !! path = Some content
  /\ (forall other, other <> path ->
        fs (snd (saveConfig E content path w)) !! other = fs w !! other)
  /\ trace (snd (saveConfig E content path w)) =
       trace w ++ [EvMkdirAll (FilepathDosxvpnConfigDir E);
                   EvWriteFile path content].
Proof.
  intros Hok. rewrite saveConfig_eq, Hok. cbn [fst snd fs trace].
  split_and!; [done|apply lookup_insert_eq| |done].
  intros other Hne. by apply lookup_insert_ne.
Qed.

Lemma saveConfig_writes_the_content_witness :
  let E := Scenario.env [] Scenario.dial_ok Scenario.write_ok
             Scenario.files_ok Scenario.clock in
  let r := saveConfig E "secret" "/Users/me/.dosxvpn/x.pem" Scenario.empty_world in
  fst r = Val ("/Users/me/.dosxvpn/x.pem", None)
  /\ fs (snd r) !! "/Users/me/.dosxvpn/x.pem" = Some "secret"
  /\ (forall other, other <> "/Users/me/.dosxvpn/x.pem" ->
        fs (snd r) !! other = fs Scenario.empty_world !! other)
  /\ trace (snd r) =
       [] ++ [EvMkdirAll (FilepathDosxvpnConfigDir E);
              EvWriteFile "/Users/me/.dosxvpn/x.pem" "secret"].
Proof.
  intros E r.
  apply (saveConfig_writes_the_content E "secret" "/Users/me/.dosxvpn/x.pem"
           Scenario.empty_world).
  reflexivity.
Defined.

(** X8: saving twice to one path replaces the file as a whole: after two
    successful calls the file system is the initial one with the path
    holding the second content, whatever the first was. *)
Theorem saveConfig_twice_keeps_the_last
    (E : Env) (first second path : string) (w : World) :
  ioutil_WriteFile E (count is_write (trace w)) path = None ->
  ioutil_WriteFile E (S (count is_write (trace w))) path = None ->
  fs (snd (saveConfig E second path (snd (saveConfig E first path w))))
  = <[path := second]> (fs w).
Proof.
  intros H1 H2. rewrite (saveConfig_eq E first), H1. cbn [snd].
  rewrite saveConfig_eq. cbn [fs trace snd].
  rewrite !count_app, !count_cons, !count_nil. cbn [is_write Nat.add].
  rewrite Nat.add_1_r, H2.
  apply insert_insert_eq.
Qed.

Lemma saveConfig_twice_keeps_the_last_witness :
  let E := Scenario.env [] Scenario.dial_ok Scenario.write_ok
             Scenario.files_ok Scenario.clock in
  fs (snd (saveConfig E "new" "/p"
             (snd (saveConfig E "old" "/p" Scenario.empty_world))))
  = <["/p" := "new"]> (fs Scenario.empty_world).
Proof.
  intros E.
  apply (saveConfig_twice_keeps_the_last E "old" "new" "/p" Scenario.empty_world);
    reflexivity.
Defined.

(** X9: [getPublicIp] makes one request, to the checkip endpoint, and
    always returns; when the request or the reading of the body fails it
    returns the empty string with that error, otherwise the body with the
    white space around it cut and no error.  The file system is not
    touched. *)
Theorem getPublicIp_one_request (E : Env) (w : World) :
  let answer := http_Get E (count is_httpget (trace w)) checkip in
  snd (getPublicIp E w) = mkWorld (fs w) (trace w ++ [EvHttpGet checkip])
  /\ (exists ip err, fst (getPublicIp E w) = Val (ip, err)
        /\ (err <> None -> ip = "")
        /\ (err = None <-> exists body, answer = HttpBody body)
        /\ (forall body, answer = HttpBody body -> ip = bytes_TrimSpace E body)
        /\ (forall e, answer = HttpGetFails e \/ answer = HttpReadFails e ->
              err = Some e)).
Proof.
  intros answer. rewrite getPublicIp_eq. cbn [fst snd]. split; [done|].
  unfold probe_answer. fold answer.
  destruct answer as [e|e|body].
  - exists "", (Some e). split_and!; try done.
    + split; [done|]. by intros [body [=]].
    + by intros e' [[= ->]|[=]].
  - exists "", (Some e). split_and!; try done.
    + split; [done|]. by intros [body [=]].
    + by intros e' [[=]|[= ->]].
  - exists (bytes_TrimSpace E body), None. split_and!; try done.
    + split; [by exists body|done].
    + by intros body' [= ->].
    + by intros e' [[=]|[=]].
Qed.

(** ** More on the two polling loops *)

Lemma waitForPort_loop_shape E host port r : forall w,
  exists n,
    (n < r)%nat
    /\ waitForPort_loop E r host port w =
         (Val ExitConnected,
          mkWorld (fs w)
            (trace w ++ failed_attempts (host_port host port) n
               ++ [EvDial "tcp" (host_port host port);
                   EvConnClose (host_port host port)]))
    \/ n = r
       /\ waitForPort_loop E r host port w =
            (Val ExitTimeout,
             mkWorld (fs w)
               (trace w ++ failed_attempts (host_port host port) n)).
Proof.
  induction r as [|r IH]; intros w.
  - exists O. right. split; [done|]. simpl. unfold ret. destruct w; simpl.
    by rewrite app_nil_r.
  - rewrite waitForPort_loop_step.
    destruct (net_Dial E _ _ _) as [e|].
    + destruct (IH (mkWorld (fs w)
                      (trace w ++ [EvDial "tcp" (host_port host port);
                                   EvSleep (5 * Second)])))
        as (n & [[Hn Heq]|[Hn Heq]]); exists (S n); rewrite Heq;
        cbn [fs trace failed_attempts]; rewrite <- app_assoc; [left|right];
        (split; [lia|done]).
    + exists O. left. split; [lia|done].
Qed.

(** X10: whatever the TCP backend answers, [waitForPort] makes some
    number [n] of refused attempts, each followed by the five second
    sleep, and then either connects, closes the connection and returns
    [nil] (after at most 15 dials in all), or has used up its 15 attempts
    and returns the timed-out error; nothing else is done and the file
    system is not touched. *)
Theorem waitForPort_refused_then_connects_or_times_out
    (E : Env) (host : string) (port : Z) (w : World) :
  exists n,
    (n < 15)%nat
    /\ waitForPort E host port w =
         (Val None,
          mkWorld (fs w)
            (trace w ++ failed_attempts (host_port host port) n
               ++ [EvDial "tcp" (host_port host port);
                   EvConnClose (host_port host port)]))
    \/ n = 15%nat
       /\ waitForPort E host port w =
            (Val (Some (timed_out port)),
             mkWorld (fs w)
               (trace w ++ failed_attempts (host_port host port) n)).
Proof.
  unfold waitForPort, bind.
  destruct (waitForPort_loop_shape E host port 15 w)
    as (n & [[Hn Heq]|[Hn Heq]]); exists n; rewrite Heq; [left|right]; done.
Qed.

Lemma convergence_loop_unchanged_step E n ip0 p :
  unchanged ip0 (probe_answer E (count is_httpget (trace (world p)))) = true ->
  convergence_loop E (S n) ip0 p =
    convergence_loop E n ip0
      (mkProc (self p)
         (mkWorld (fs (world p))
            (trace (world p) ++ [EvSleep (Second * 5); EvHttpGet checkip]))).
Proof.
  intros Hun.
  cbn [convergence_loop]. unfold bind at 1. unfold io at 1, time_Sleep, emit.
  cbn [world self fs trace]. unfold bind at 1. unfold io at 1.
  rewrite getPublicIp_eq. cbn [world self fs trace].
  rewrite count_app, count_cons, count_nil. cbn [is_httpget Nat.add].
  rewrite Nat.add_0_r.
  destruct (probe_answer E _) as [newIP err]. unfold unchanged in Hun.
  cbn [fst snd] in Hun. apply negb_true_iff in Hun. rewrite Hun.
  by rewrite <- app_assoc.
Qed.

Lemma convergence_loop_changed_step E n ip0 p :
  unchanged ip0 (probe_answer E (count is_httpget (trace (world p)))) = false ->
  convergence_loop E (S n) ip0 p =
    (Val tt,
     mkProc
       (set_FinalPublicIP
          (fst (probe_answer E (S (count is_httpget (trace (world p))))))
          (self p))
       (mkWorld (fs (world p))
          (trace (world p)
             ++ [EvSleep (Second * 5); EvHttpGet checkip; EvHttpGet checkip]))).
Proof.
  intros Hch. unfold unchanged in Hch. apply negb_false_iff in Hch.
  destruct (probe_answer E (count is_httpget (trace (world p))))
    as [newIP err] eqn:Hans.
  cbn [fst snd] in Hch. apply andb_prop in Hch as [[Herr Hne]%andb_prop Hne0].
  destruct err; [done|].
  apply negb_true_iff, String.eqb_neq in Hne, Hne0.
  by apply convergence_loop_probes_twice_on_change with (newIP := newIP).
Qed.

Lemma count_httpget_quiet_turns n : count is_httpget (quiet_turns n) = n.
Proof.
  induction n as [|n IH]; [done|]. cbn [quiet_turns].
  rewrite !count_cons, IH. done.
Qed.

(** X11: when none of its [n] probes shows a non-empty address other than
    the baseline, the convergence loop makes its [n] turns, a five second
    sleep and one probe each, and ends without an error and without
    assigning anything: [FinalPublicIP] stays as it was. *)
Theorem convergence_loop_gives_up
    (E : Env) (n : nat) (ip0 : string) (p : Proc) :
  (forall i, (i < n)%nat ->
     unchanged ip0
       (probe_answer E (count is_httpget (trace (world p)) + i)) = true) ->
  convergence_loop E n ip0 p =
    (Val tt,
     mkProc (self p)
       (mkWorld (fs (world p)) (trace (world p) ++ quiet_turns n))).
Proof.
  revert p. induction n as [|n IH]; intros p Hun.
  - simpl. unfold ret. destruct p as [d [f t]]. simpl. by rewrite app_nil_r.
  - rewrite convergence_loop_unchanged_step.
    + rewrite IH; cbn [self world fs trace quiet_turns].
      * by rewrite <- app_assoc.
      * intros i Hi. rewrite !count_app, !count_cons, !count_nil.
        cbn [is_httpget Nat.add].
        replace (count is_httpget (trace (world p)) + 1 + i)%nat
          with (count is_httpget (trace (world p)) + S i)%nat by lia.
        apply Hun. lia.
    + specialize (Hun O ltac:(lia)). by rewrite Nat.add_0_r in Hun.
Qed.

Lemma convergence_loop_gives_up_witness :
  let E := Scenario.env [Scenario.ip "1.2.3.4"; Scenario.ip "1.2.3.4";
                         HttpBody ""; HttpReadFails "reset"]
             Scenario.dial_ok Scenario.write_ok Scenario.files_ok
             Scenario.clock in
  let p := mkProc (Scenario.deployment true) Scenario.empty_world in
  convergence_loop E 4 "1.2.3.4" p =
    (Val tt, mkProc (Scenario.deployment true) (mkWorld ∅ ([] ++ quiet_turns 4))).
Proof.
  intros E p.
  apply (convergence_loop_gives_up E 4 "1.2.3.4" p).
  intros i Hi. do 4 (destruct i as [|i]; [reflexivity|]). simpl in Hi. lia.
Defined.

Lemma convergence_loop_shape (E : Env) (n : nat) (ip0 : string) (p : Proc) :
  exists m,
    (m <= n)%nat
    /\ (m = n
        /\ convergence_loop E n ip0 p =
             (Val tt,
              mkProc (self p)
                (mkWorld (fs (world p)) (trace (world p) ++ quiet_turns m)))
        \/ (1 <= m)%nat
           /\ convergence_loop E n ip0 p =
                (Val tt,
                 mkProc
                   (set_FinalPublicIP
                      (fst (probe_answer E
                              (count is_httpget (trace (world p)) + m)))
                      (self p))
                   (mkWorld (fs (world p))
                      (trace (world p) ++ quiet_turns m ++ [EvHttpGet checkip])))).
Proof.
  revert p. induction n as [|n IH]; intros p.
  - exists O. split; [done|]. left. split; [done|].
    simpl. unfold ret. destruct p as [d [f t]]. simpl. by rewrite app_nil_r.
  - destruct (unchanged ip0
                (probe_answer E (count is_httpget (trace (world p))))) eqn:Hun.
    + rewrite (convergence_loop_unchanged_step _ _ _ _ Hun).
      destruct (IH (mkProc (self p)
                      (mkWorld (fs (world p))
                         (trace (world p)
                            ++ [EvSleep (Second * 5); EvHttpGet checkip]))))
        as (m & Hm & [[Hmn Heq]|[Hm1 Heq]]); exists (S m); (split; [lia|]);
        rewrite Heq; cbn [self world fs trace quiet_turns];
        rewrite <- app_assoc; [left|right]; (split; [lia|]); [done|].
      rewrite !count_app, !count_cons, !count_nil. cbn [is_httpget Nat.add].
      by replace (count is_httpget (trace (world p)) + 1 + m)%nat
        with (count is_httpget (trace (world p)) + S m)%nat by lia.
    + rewrite (convergence_loop_changed_step _ _ _ _ Hun).
      exists 1%nat. split; [lia|]. right. split; [lia|].
      by rewrite Nat.add_1_r.
Qed.

(** X12: whatever the endpoint answers, the convergence loop of [n] turns
    ends in one of two ways.  Either it gives up after [n] quiet turns and
    assigns nothing; or some turn [m <= n] sees a change, the loop probes
    once more on the spot, stores the address of that extra probe (empty
    if it failed) in [FinalPublicIP] and stops.  So it sleeps at most [n]
    times and probes at most [n + 1] times. *)
Theorem convergence_loop_gives_up_or_stores_extra_probe
    (E : Env) (n : nat) (ip0 : string) (p : Proc) :
  exists m,
    (m <= n)%nat
    /\ (m = n
        /\ convergence_loop E n ip0 p =
             (Val tt,
              mkProc (self p)
                (mkWorld (fs (world p)) (trace (world p) ++ quiet_turns m)))
        \/ (1 <= m)%nat
           /\ convergence_loop E n ip0 p =
                (Val tt,
                 mkProc
                   (set_FinalPublicIP
                      (fst (probe_answer E
                              (count is_httpget (trace (world p)) + m)))
                      (self p))
                   (mkWorld (fs (world p))
                      (trace (world p) ++ quiet_turns m ++ [EvHttpGet checkip])))).
Proof. apply convergence_loop_shape. Qed.

(** ** More on [getAndSaveConfigFiles] *)

Lemma getAndSaveConfigFiles_all_fetched E ip name order : forall p,
  Forall (fun entry =>
            snd (sshclient_GetFileFromContainer E (sshClient (self p)) "core"
                   ip "dosxvpn" (fst entry)) = None) order ->
  exists files,
    getAndSaveConfigFiles E order ip name p =
      (Val None,
       mkProc (self p)
         (mkWorld files
            (trace (world p)
               ++ pipeline_events E (sshClient (self p)) ip name order))).
Proof.
  induction order as [|[remote tmpl] rest IH]; intros p Hok.
  - exists (fs (world p)). simpl. unfold ret. destruct p as [d [f t]]. simpl.
    by rewrite app_nil_r.
  - apply Forall_cons in Hok as [Hfetch Hrest]. cbn [fst] in Hfetch.
    destruct (sshclient_GetFileFromContainer E (sshClient (self p)) "core" ip
                "dosxvpn" remote) as [content err] eqn:Hget.
    cbn [snd] in Hfetch. subst err.
    rewrite (getAndSaveConfigFiles_fetch_ok _ _ _ _ _ _ _ _ Hget).
    rewrite saveConfig_eq. cbn [snd fs trace].
    edestruct IH as [files ->]; [exact Hrest|].
    exists files. cbn [self world fs trace pipeline_events flat_map fst snd].
    rewrite Hget. cbn [fst]. by rewrite <- !app_assoc.
Qed.

(** X13: when every fetch succeeds, [getAndSaveConfigFiles] returns [nil]
    after visiting all entries in the order of the range, fetching and
    then saving each; this is so whatever the local writes do, since what
    [saveConfig] returns is dropped.  The deployment is not changed. *)
Theorem getAndSaveConfigFiles_returns_nil_when_all_fetched
    (E : Env) (ip name : string)
    (order : list (string * (string -> string))) (p : Proc) :
  Forall (fun entry =>
            snd (sshclient_GetFileFromContainer E (sshClient (self p)) "core"
                   ip "dosxvpn" (fst entry)) = None) order ->
  let r := call (getAndSaveConfigFiles E order ip name) p in
  fst r = Returned None
  /\ self (snd r) = self p
  /\ trace (world (snd r)) =
       trace (world p) ++ pipeline_events E (sshClient (self p)) ip name order.
Proof.
  intros Hok r. subst r. unfold call.
  destruct (getAndSaveConfigFiles_all_fetched E ip name order p Hok)
    as [files ->].
  done.
Qed.

Lemma getAndSaveConfigFiles_returns_nil_when_all_fetched_witness :
  let E := Scenario.env [] Scenario.dial_ok Scenario.write_first_fails
             Scenario.files_ok Scenario.clock in
  let p := mkProc (Scenario.deployment false) Scenario.empty_world in
  let r := call (getAndSaveConfigFiles E (VpnFiles) "10.0.0.1"
                   "dosxvpn-129-nyc1") p in
  fst r = Returned None
  /\ self (snd r) = self p
  /\ trace (world (snd r)) =
       trace (world p)
         ++ pipeline_events E (sshClient (self p)) "10.0.0.1"
              "dosxvpn-129-nyc1" VpnFiles.
Proof.
  intros E p r.
  apply (getAndSaveConfigFiles_returns_nil_when_all_fetched
           E "10.0.0.1" "dosxvpn-129-nyc1" VpnFiles p).
  repeat constructor.
Defined.

(** X14: the first fetch that fails ends [getAndSaveConfigFiles] with
    that error: the entries visited before it were fetched and saved, the
    failed fetch is the last thing done, and the entries after it are
    neither fetched nor written. *)
Theorem getAndSaveConfigFiles_stops_at_first_failed_fetch
    (E : Env) (ip name : string)
    (before after : list (string * (string -> string)))
    (remote : string) (template : string -> string) (e : error) (p : Proc) :
  Forall (fun entry =>
            snd (sshclient_GetFileFromContainer E (sshClient (self p)) "core"
                   ip "dosxvpn" (fst entry)) = None) before ->
  snd (sshclient_GetFileFromContainer E (sshClient (self p)) "core"
         ip "dosxvpn" remote) = Some e ->
  let r := call (getAndSaveConfigFiles E
                   (before ++ (remote, template) :: after) ip name) p in
  fst r = Returned (Some e)
  /\ self (snd r) = self p
  /\ trace (world (snd r)) =
       trace (world p)
         ++ pipeline_events E (sshClient (self p)) ip name before
         ++ [EvGetFile "core" ip "dosxvpn" remote].
Proof.
  revert p. induction before as [|[remote' tmpl'] rest IH]; intros p Hok Hfail r;
    subst r.
  - destruct (sshclient_GetFileFromContainer E (sshClient (self p)) "core" ip
                "dosxvpn" remote) as [junk err] eqn:Hget.
    cbn [snd] in Hfail. subst err. unfold call. cbn [app].
    by rewrite (getAndSaveConfigFiles_fetch_fails _ _ _ _ _ _ _ _ _ Hget).
  - apply Forall_cons in Hok as [Hfetch Hrest]. cbn [fst] in Hfetch.
    destruct (sshclient_GetFileFromContainer E (sshClient (self p)) "core" ip
                "dosxvpn" remote') as [content err] eqn:Hget.
    cbn [snd] in Hfetch. subst err.
    unfold call. cbn [app].
    rewrite (getAndSaveConfigFiles_fetch_ok _ _ _ _ _ _ _ _ Hget).
    rewrite saveConfig_eq. cbn [snd].
    specialize (IH (mkProc (self p)
      (mkWorld
         match ioutil_WriteFile E
                 (count is_write
                    (trace (world p) ++ [EvGetFile "core" ip "dosxvpn" remote']))
                 (config_path E tmpl' name) with
         | Some _ => fs (world p)
         | None => <[config_path E tmpl' name := content]> (fs (world p))
         end
         ((trace (world p) ++ [EvGetFile "core" ip "dosxvpn" remote'])
            ++ [EvMkdirAll (FilepathDosxvpnConfigDir E);
                EvWriteFile (config_path E tmpl' name) content])))
      Hrest Hfail).
    cbn zeta in IH. unfold call in IH. cbn [self world fs trace] in IH.
    destruct (getAndSaveConfigFiles E _ ip name _) as [[| | |] p'];
      cbn [fst snd] in *; destruct IH as (Hr & Hs & Ht); try done.
    + split_and!; [done..|].
      rewrite Ht. cbn [pipeline_events flat_map fst snd]. rewrite Hget.
      cbn [fst]. by rewrite <- !app_assoc.
    + split_and!; [done..|].
      rewrite Ht. cbn [pipeline_events flat_map fst snd]. rewrite Hget.
      cbn [fst]. by rewrite <- !app_assoc.
Qed.

Lemma getAndSaveConfigFiles_stops_at_first_failed_fetch_witness :
  let E := Scenario.env [] Scenario.dial_ok Scenario.write_ok
             Scenario.files_second_fails Scenario.clock in
  let p := mkProc (Scenario.deployment false) Scenario.empty_world in
  let r := call (getAndSaveConfigFiles E
                   ([(remote_private_key, FilenamePrivateKey)]
                      ++ (remote_ca_cert, FilenameCACert)
                      :: [(remote_server_cert, FilenameServerCert)])
                   "10.0.0.1" "dosxvpn-129-nyc1") p in
  fst r = Returned (Some "ssh: no such file")
  /\ self (snd r) = self p
  /\ trace (world (snd r)) =
       trace (world p)
         ++ pipeline_events E (sshClient (self p)) "10.0.0.1"
              "dosxvpn-129-nyc1" [(remote_private_key, FilenamePrivateKey)]
         ++ [EvGetFile "core" "10.0.0.1" "dosxvpn" remote_ca_cert].
Proof.
  intros E p r.
  apply (getAndSaveConfigFiles_stops_at_first_failed_fetch
           E "10.0.0.1" "dosxvpn-129-nyc1"
           [(remote_private_key, FilenamePrivateKey)]
           [(remote_server_cert, FilenameServerCert)]
           remote_ca_cert FilenameCACert "ssh: no such file" p).
  - repeat constructor.
  - reflexivity.
Defined.

(** ** More on [Run] *)

(** At the end of a path: what the collaborators answered there. *)
Ltac use_answers :=
  repeat (cbn [fst snd] in *;
          match goal with
          | Hq : ?t = (_, _) |- context [?t] => rewrite Hq
          | Hq : ?t = Some _ |- context [?t] => rewrite Hq
          | Hq : ?t = None |- context [?t] => rewrite Hq
          end);
  cbn [fst snd] in *.

Ltac unfold_answers :=
  unfold fatal_errors, returned_errors, rendered_apple, rendered_android,
    fetched, provisioned_ip, provisioned_id in *.

(** X15: [Run] never panics, and when it ends the process through
    [log.Fatal] the message is the error of the droplet creation, of the
    wait for its address, of the firewall, the time-out on port 22, or the
    error of the remote wait command; at that point no remote file has
    been fetched, nothing has been written locally, and the local
    network settings have not been touched. *)
Theorem Run_fatal_exit_comes_before_any_file
    (E : Env) (d : Deployment) (w : World) :
  (forall msg, fst (Run E d w) <> Panicked msg)
  /\ (forall msg, fst (Run E d w) = Exited msg ->
        Some msg ∈ fatal_errors E d
        /\ fs (world (snd (Run E d w))) = fs w
        /\ count is_getfile (new_events w (snd (Run E d w))) = O
        /\ count is_write (new_events w (snd (Run E d w))) = O
        /\ count is_osxaddvpn (new_events w (snd (Run E d w))) = O).
Proof.
  destruct (Run E d w) as [o p] eqn:H. cbn [fst snd].
  run_all H.
  all: split; [done|]; intros msg [= <-] || (intros msg Hmsg; discriminate Hmsg).
  all: unfold new_events; cbn [world trace fs]; rewrite drop_app_length.
  all: trace_norm.
  all: split_and!; try done.
  all: unfold_answers; use_answers.
  all: rewrite !elem_of_cons; auto 10.
Qed.

(** X16: however it ends, [Run] leaves what [New] set up as it was: the
    name, region, token and flag, the services and the user data, and the
    two clients. *)
Theorem Run_keeps_what_New_set_up (E : Env) (d : Deployment) (w : World) :
  let d' := self (snd (Run E d w)) in
  Name d' = Name d /\ Region d' = Region d /\ Token d' = Token d
  /\ AutoConfigure d' = AutoConfigure d /\ services d' = services d
  /\ userData d' = userData d /\ doClient d' = doClient d
  /\ sshClient d' = sshClient d.
Proof.
  destruct (Run E d w) as [o p] eqn:H. cbn [fst snd].
  run_all H.
  all: by split_and!.
Qed.

(** X17: when [Run] returns [nil], the deployment holds the id the
    creation of the droplet gave, the address the wait gave, as droplet
    address and as VPN address alike, the password fetched from the
    container, and as initial public address what the first probe
    returned. *)
Theorem Run_success_records_what_it_was_given
    (E : Env) (d : Deployment) (w : World) :
  fst (Run E d w) = Returned None ->
  let d' := self (snd (Run E d w)) in
  dropletID d' = provisioned_id E d
  /\ dropletIP d' = provisioned_ip E d
  /\ VPNIPAddress d' = provisioned_ip E d
  /\ VpnPassword d' = fst (fetched E d remote_password)
  /\ InitialPublicIP d' = fst (probe_answer E (count is_httpget (trace w))).
Proof.
  destruct (Run E d w) as [o p] eqn:H. cbn [fst snd].
  run_all H.
  all: intros [=].
  all: unfold_answers; use_answers.
  all: by split_and!.
Qed.

Lemma Run_success_records_what_it_was_given_witness :
  let E := Scenario.env [Scenario.ip "1.2.3.4"] Scenario.dial_ok
             Scenario.write_ok Scenario.files_ok Scenario.clock in
  let d' := self (snd (Run E (Scenario.deployment false) Scenario.empty_world)) in
  dropletID d' = 42
  /\ dropletIP d' = "10.0.0.1"
  /\ VPNIPAddress d' = "10.0.0.1"
  /\ VpnPassword d' = "content of /etc/ipsec.d/client.cert.p12.password"
  /\ InitialPublicIP d' = "1.2.3.4".
Proof.
  intros E d'.
  apply (Run_success_records_what_it_was_given
           E (Scenario.deployment false) Scenario.empty_world).
  vm_compute. reflexivity.
Defined.

Lemma writes_within_port_events paths (t : list Event) :
  forallb port_event t = true -> Forall (writes_within paths) t.
Proof.
  induction t as [|e t IH]; [by constructor|]. simpl.
  intros [He Ht]%andb_prop. constructor; [by destruct e|by apply IH].
Qed.

Lemma writes_within_probe_events paths (t : list Event) :
  forallb probe_event t = true -> Forall (writes_within paths) t.
Proof.
  induction t as [|e t IH]; [by constructor|]. simpl.
  intros [He Ht]%andb_prop. constructor; [by destruct e|by apply IH].
Qed.

(** Where and how often [Run] writes. *)
Lemma Run_write_targets_and_counts
    (E : Env) (d : Deployment) (w : World) :
  Forall (writes_within (config_paths E (Name d)))
    (new_events w (snd (Run E d w)))
  /\ (count is_write (new_events w (snd (Run E d w))) <= 5)%nat
  /\ count is_mkdirall (new_events w (snd (Run E d w)))
     = count is_write (new_events w (snd (Run E d w))).
Proof.
  destruct (Run E d w) as [o p] eqn:H. cbn [fst snd].
  run_all H.
  all: unfold new_events; cbn [world trace]; rewrite drop_app_length.
  all: split;
    [ repeat first
        [ apply Forall_nil_2
        | by apply writes_within_port_events
        | by apply writes_within_probe_events
        | apply Forall_cons; split;
          [ first [ exact I
                  | unfold writes_within, config_paths, config_filenames,
                      config_path;
                    cbn [fmap list_fmap]; rewrite !elem_of_cons; auto 10 ] | ]
        | apply Forall_app; split;
          [ first [ by apply writes_within_port_events
                  | by apply writes_within_probe_events ] | ] ]
    | ].
  all: repeat first
         [ rewrite count_cons | rewrite count_app | rewrite count_nil ].
  all: repeat match goal with
         | Hp : forallb port_event ?t = true |- _ =>
             rewrite ?(count_port_events is_write t (fun e => ltac:(by destruct e)) Hp),
               ?(count_port_events is_mkdirall t (fun e => ltac:(by destruct e)) Hp);
             clear Hp
         | Hp : forallb probe_event ?t = true |- _ =>
             rewrite ?(count_probe_events is_write t (fun e => ltac:(by destruct e)) Hp),
               ?(count_probe_events is_mkdirall t (fun e => ltac:(by destruct e)) Hp);
             clear Hp
         end.
  all: cbn [is_write is_mkdirall Nat.add]; split; [lia|done].
Qed.

(** X19: when [Run] returns [nil] and no local write failed, the file
    system is the initial one with five files written in this order: the
    private key, the CA certificate and the server certificate as fetched,
    then the two rendered client configurations. *)
Theorem Run_success_leaves_the_five_files
    (E : Env) (d : Deployment) (w : World) :
  (forall k path, ioutil_WriteFile E k path = None) ->
  fst (Run E d w) = Returned None ->
  fs (world (snd (Run E d w))) =
    <[config_path E FilenameAndroidConfig (Name d) := fst (rendered_android E d)]>
      (<[config_path E FilenameAppleConfig (Name d) := fst (rendered_apple E d)]>
         (<[config_path E FilenameServerCert (Name d)
              := fst (fetched E d remote_server_cert)]>
            (<[config_path E FilenameCACert (Name d)
                 := fst (fetched E d remote_ca_cert)]>
               (<[config_path E FilenamePrivateKey (Name d)
                    := fst (fetched E d remote_private_key)]> (fs w))))).
Proof.
  intros Hwrites.
  destruct (Run E d w) as [o p] eqn:H. cbn [fst snd].
  run_all H.
  all: intros [=].
  all: repeat match goal with
         | Hq : ?wr = ioutil_WriteFile _ _ _ |- _ =>
             rewrite Hwrites in Hq; subst wr
         end.
  all: unfold_answers; use_answers.
  all: reflexivity.
Qed.

Lemma Run_success_leaves_the_five_files_witness :
  let E := Scenario.env [Scenario.ip "1.2.3.4"] Scenario.dial_ok
             Scenario.write_ok Scenario.files_ok Scenario.clock in
  let d := Scenario.deployment false in
  fs (world (snd (Run E d Scenario.empty_world))) =
    <[config_path E FilenameAndroidConfig (Name d) := fst (rendered_android E d)]>
      (<[config_path E FilenameAppleConfig (Name d) := fst (rendered_apple E d)]>
         (<[config_path E FilenameServerCert (Name d)
              := fst (fetched E d remote_server_cert)]>
            (<[config_path E FilenameCACert (Name d)
                 := fst (fetched E d remote_ca_cert)]>
               (<[config_path E FilenamePrivateKey (Name d)
                    := fst (fetched E d remote_private_key)]>
                  (fs Scenario.empty_world))))).
Proof.
  intros E d.
  apply (Run_success_leaves_the_five_files E d Scenario.empty_world).
  - intros k path. reflexivity.
  - vm_compute. reflexivity.
Defined.

Lemma filter_port_events p (t : list Event) :
  (forall e, port_event e = true -> p e = false) ->
  forallb port_event t = true -> List.filter p t = [].
Proof.
  intros Hp. induction t as [|e t IH]; [done|]. simpl.
  intros [He Ht]%andb_prop. by rewrite (Hp e He), IH.
Qed.

Lemma filter_probe_events p (t : list Event) :
  (forall e, probe_event e = true -> p e = false) ->
  forallb probe_event t = true -> List.filter p t = [].
Proof.
  intros Hp. induction t as [|e t IH]; [done|]. simpl.
  intros [He Ht]%andb_prop. by rewrite (Hp e He), IH.
Qed.

(** How often [Run] calls the local mutator, and what follows. *)
Lemma Run_local_apply_cases
    (E : Env) (d : Deployment) (w : World) :
  List.filter is_osxaddvpn (new_events w (snd (Run E d w))) = []
  \/ List.filter is_osxaddvpn (new_events w (snd (Run E d w)))
       = [EvOSXAddVPN (config_path E FilenameAppleConfig (Name d))]
     /\ AutoConfigure d = true
     /\ count is_write (new_events w (snd (Run E d w))) = 5%nat
     /\ fst (Run E d w) = Returned None
     /\ Status (self (snd (Run E d w))) = "done".
Proof.
  destruct (Run E d w) as [o p] eqn:H. cbn [fst snd].
  run_all H.
  all: unfold new_events; cbn [world trace]; rewrite drop_app_length.
  all: repeat first
         [ rewrite count_cons | rewrite count_app | rewrite count_nil
         | rewrite List.filter_app | progress cbn [List.filter is_osxaddvpn] ].
  all: repeat match goal with
         | Hp : forallb port_event ?t = true |- _ =>
             rewrite ?(count_port_events is_write t (fun e => ltac:(by destruct e)) Hp),
               ?(filter_port_events is_osxaddvpn t (fun e => ltac:(by destruct e)) Hp);
             clear Hp
         | Hp : forallb probe_event ?t = true |- _ =>
             rewrite ?(count_probe_events is_write t (fun e => ltac:(by destruct e)) Hp),
               ?(filter_probe_events is_osxaddvpn t (fun e => ltac:(by destruct e)) Hp);
             clear Hp
         end.
  all: cbn [app is_write Nat.add List.filter is_osxaddvpn].
  all: first [by left | right; by split_and!].
Qed.

Lemma waitForSSH_all_refused E ip w :
  (forall i, (i < 15)%nat ->
     net_Dial E (count is_dial (trace w) + i) "tcp" (host_port ip 22) <> None) ->
  waitForSSH E ip w =
    (Val (Some (timed_out 22)),
     mkWorld (fs w) (trace w ++ failed_attempts (host_port ip 22) 15)).
Proof.
  intros Hfail. unfold waitForSSH, waitForPort, bind.
  by rewrite waitForPort_loop_all_fail.
Qed.

(** X21: when the droplet is created, gets its address and its firewall,
    but port 22 of that address refuses all 15 attempts, the process exits
    through [log.Fatal] with the message that port 22 timed out.  The
    status stays [waiting for ssh], the run ends with the fifteenth dial
    and its sleep, and no remote command is run. *)
Theorem Run_exits_when_ssh_never_opens
    (E : Env) (d : Deployment) (w : World) (id : Z) (ip : string) :
  doclient_CreateDroplet E (doClient d) (Name d) (Region d) DropletSize
    (userData d) DropletImage = (id, None) ->
  doclient_WaitForDropletIP E (doClient d) id = (ip, None) ->
  doclient_CreateFirewall E (doClient d) (Name d) id = None ->
  (forall i, (i < 15)%nat ->
     net_Dial E (count is_dial (trace w) + i) "tcp" (host_port ip 22) <> None) ->
  fst (Run E d w) = Exited "timed out waiting for port 22 to open"
  /\ Status (self (snd (Run E d w))) = "waiting for ssh"
  /\ fs (world (snd (Run E d w))) = fs w
  /\ new_events w (snd (Run E d w)) =
       [EvHttpGet checkip;
        EvCreateDroplet (Name d) (Region d) DropletSize (userData d) DropletImage;
        EvWaitForDropletIP id;
        EvCreateFirewall (Name d) id;
        EvStatus "waiting for ssh"]
       ++ failed_attempts (host_port ip 22) 15.
Proof.
  intros Hcreate Hip Hfw Hrefused.
  destruct (Run E d w) as [o p] eqn:H. cbn [fst snd].
  run_unfold H. run_step H.
  run_cbn H. rewrite Hcreate in H.
  run_cbn H. rewrite Hip in H.
  run_cbn H. rewrite Hfw in H.
  run_cbn H.
  rewrite (waitForSSH_all_refused E ip) in H.
  - run_cbn H. apply pair_equal_spec in H. destruct H as [<- <-].
    cbn [self world fs trace Status set_Status].
    split_and!; [done..|].
    unfold new_events. cbn [world trace].
    rewrite <- !app_assoc. by rewrite drop_app_length.
  - intros i Hi. cbn [trace]. rewrite !count_app, !count_cons, !count_nil.
    cbn [is_dial Nat.add]. rewrite !Nat.add_0_r. by apply Hrefused.
Qed.

Lemma Run_exits_when_ssh_never_opens_witness :
  let E := Scenario.env [Scenario.ip "1.2.3.4"] Scenario.dial_refused
             Scenario.write_ok Scenario.files_ok Scenario.clock in
  let r := Run E (Scenario.deployment true) Scenario.empty_world in
  fst r = Exited "timed out waiting for port 22 to open"
  /\ Status (self (snd r)) = "waiting for ssh"
  /\ fs (world (snd r)) = fs Scenario.empty_world
  /\ new_events Scenario.empty_world (snd r) =
       [EvHttpGet checkip;
        EvCreateDroplet "dosxvpn-129-nyc1" "nyc1" DropletSize "#cloud-config"
          DropletImage;
        EvWaitForDropletIP 42;
        EvCreateFirewall "dosxvpn-129-nyc1" 42;
        EvStatus "waiting for ssh"]
       ++ failed_attempts (host_port "10.0.0.1" 22) 15.
Proof.
  intros E r.
  apply (Run_exits_when_ssh_never_opens
           E (Scenario.deployment true) Scenario.empty_world 42 "10.0.0.1").
  - reflexivity.
  - reflexivity.
  - reflexivity.
  - intros i _. discriminate.
Defined.

(** X22: when [Run] returns an error, it is the error of one of the four
    fetches from the container or of one of the two renderings; the local
    network settings have not been touched and the status still reads
    [waiting for ssh]. *)
Theorem Run_returned_error_is_a_fetch_or_render_error
    (E : Env) (d : Deployment) (w : World) (e : error) :
  fst (Run E d w) = Returned (Some e) ->
  Some e ∈ returned_errors E d
  /\ count is_osxaddvpn (new_events w (snd (Run E d w))) = O
  /\ Status (self (snd (Run E d w))) = "waiting for ssh".
Proof.
  destruct (Run E d w) as [o p] eqn:H. cbn [fst snd].
  run_all H.
  all: intros [= <-].
  all: unfold new_events; cbn [world trace]; rewrite drop_app_length.
  all: trace_norm.
  all: split_and!; try done.
  all: unfold_answers; use_answers.
  all: rewrite !elem_of_cons; auto 10.
Qed.

Lemma Run_returned_error_is_a_fetch_or_render_error_witness :
  let E := Scenario.env [Scenario.ip "1.2.3.4"] Scenario.dial_ok
             Scenario.write_ok Scenario.files_second_fails Scenario.clock in
  let d := Scenario.deployment true in
  Some "ssh: no such file" ∈ returned_errors E d
  /\ count is_osxaddvpn
       (new_events Scenario.empty_world (snd (Run E d Scenario.empty_world))) = O
  /\ Status (self (snd (Run E d Scenario.empty_world))) = "waiting for ssh".
Proof.
  intros E d.
  apply (Run_returned_error_is_a_fetch_or_render_error
           E d Scenario.empty_world "ssh: no such file").
  vm_compute. reflexivity.
Defined.

Lemma count_sleep_failed_attempts a n : count is_sleep (failed_attempts a n) = n.
Proof.
  induction n as [|n IH]; [done|]. cbn [failed_attempts].
  by rewrite !count_cons, IH.
Qed.

Lemma count_sleep_quiet_turns n : count is_sleep (quiet_turns n) = n.
Proof.
  induction n as [|n IH]; [done|]. cbn [quiet_turns].
  by rewrite !count_cons, IH.
Qed.

Lemma quiet_turns_probe_events n : forallb probe_event (quiet_turns n) = true.
Proof. induction n as [|n IH]; [done|]. simpl. exact IH. Qed.

Lemma waitForSSH_total_bounded E ip w :
  exists r t,
    waitForSSH E ip w = (Val r, mkWorld (fs w) (trace w ++ t))
    /\ (r = None \/ r = Some (timed_out 22))
    /\ forallb port_event t = true
    /\ (count is_dial t <= 15)%nat
    /\ (count is_sleep t <= 15)%nat.
Proof.
  unfold waitForSSH, waitForPort, bind.
  destruct (waitForPort_loop_shape E ip 22 15 w) as (n & [[Hn ->]|[-> ->]]);
    do 2 eexists; (split; [reflexivity|]); cbn [exit_error].
  - split; [by left|].
    rewrite forallb_app, failed_attempts_port_events.
    rewrite !count_app, count_dial_failed_attempts, count_sleep_failed_attempts.
    rewrite !count_cons, !count_nil. cbn. split_and!; [done|lia..].
  - split; [by right|].
    rewrite failed_attempts_port_events, count_dial_failed_attempts,
      count_sleep_failed_attempts. done.
Qed.

Lemma convergence_loop_total_bounded E ip0 n p :
  exists d' t,
    convergence_loop E n ip0 p =
      (Val tt, mkProc d' (mkWorld (fs (world p)) (trace (world p) ++ t)))
    /\ forallb probe_event t = true
    /\ (count is_httpget t <= n + 1)%nat
    /\ (count is_sleep t <= n)%nat.
Proof.
  destruct (convergence_loop_shape E n ip0 p)
    as (m & Hm & [[-> ->]|[Hm1 ->]]); do 2 eexists;
    (split; [reflexivity|]).
  - rewrite quiet_turns_probe_events, count_httpget_quiet_turns,
      count_sleep_quiet_turns. split_and!; [done|lia..].
  - rewrite forallb_app, quiet_turns_probe_events.
    rewrite !count_app, count_httpget_quiet_turns, count_sleep_quiet_turns.
    rewrite !count_cons, !count_nil. cbn. split_and!; [done|lia..].
Qed.

(** [run_step] with the loops' bounds kept at hand. *)
Ltac run_step_bounded H :=
  run_cbn H;
  first
    [ match type of H with
      | context [waitForSSH ?E ?ip ?w] =>
          let Hs := fresh "Hssh" in let Hr := fresh "Hr" in
          let Ht := fresh "Hport" in
          let Hd := fresh "Hdials" in let Hz := fresh "Hnaps" in
          destruct (waitForSSH_total_bounded E ip w)
            as (? & ? & Hs & Hr & Ht & Hd & Hz);
          rewrite Hs in H; clear Hs; destruct Hr; subst
      | context [convergence_loop ?E ?n ?ip ?p] =>
          let Hs := fresh "Hloop" in let Ht := fresh "Hprobe" in
          let Hg := fresh "Hgets" in let Hz := fresh "Hnaps" in
          destruct (convergence_loop_total_bounded E ip n p)
            as (? & ? & Hs & Ht & Hg & Hz);
          rewrite Hs in H; clear Hs
      end
    | run_step H ].

(** X23: however it ends, one call of [Run] asks for exactly one droplet,
    dials at most 15 times, probes the public address at most 12 times,
    fetches at most four remote files, writes at most five local ones,
    calls the local mutator at most once and sleeps at most 25 times. *)
Theorem Run_call_bounds (E : Env) (d : Deployment) (w : World) :
  let t := new_events w (snd (Run E d w)) in
  count is_createdroplet t = 1%nat
  /\ (count is_dial t <= 15)%nat
  /\ (count is_httpget t <= 12)%nat
  /\ (count is_getfile t <= 4)%nat
  /\ (count is_write t <= 5)%nat
  /\ (count is_osxaddvpn t <= 1)%nat
  /\ (count is_sleep t <= 25)%nat.
Proof.
  destruct (Run E d w) as [o p] eqn:H. cbn [fst snd].
  run_unfold H; repeat run_step_bounded H; run_done H.
  all: cbn zeta; unfold new_events; cbn [world trace]; rewrite drop_app_length.
  all: repeat first
         [ rewrite count_cons | rewrite count_app | rewrite count_nil ].
  all: repeat match goal with
         | Hp : forallb port_event ?t = true |- _ =>
             rewrite ?(count_port_events is_createdroplet t (fun e => ltac:(by destruct e)) Hp),
               ?(count_port_events is_httpget t (fun e => ltac:(by destruct e)) Hp),
               ?(count_port_events is_getfile t (fun e => ltac:(by destruct e)) Hp),
               ?(count_port_events is_write t (fun e => ltac:(by destruct e)) Hp),
               ?(count_port_events is_osxaddvpn t (fun e => ltac:(by destruct e)) Hp);
             clear Hp
         | Hp : forallb probe_event ?t = true |- _ =>
             rewrite ?(count_probe_events is_createdroplet t (fun e => ltac:(by destruct e)) Hp),
               ?(count_probe_events is_dial t (fun e => ltac:(by destruct e)) Hp),
               ?(count_probe_events is_getfile t (fun e => ltac:(by destruct e)) Hp),
               ?(count_probe_events is_write t (fun e => ltac:(by destruct e)) Hp),
               ?(count_probe_events is_osxaddvpn t (fun e => ltac:(by destruct e)) Hp);
             clear Hp
         end.
  all: cbn [is_createdroplet is_dial is_httpget is_getfile is_write
            is_osxaddvpn is_sleep].
  all: split_and!; lia.
Qed.

(** ** The order of writes, directory and local apply in [Run] *)

Lemma guarded_writes_prev dir t b :
  guarded_writes dir false t = true -> guarded_writes dir b t = true.
Proof. destruct t as [|[] t]; simpl; try done. Qed.

Lemma guarded_writes_app dir t1 : forall b t2,
  guarded_writes dir b t1 = true ->
  guarded_writes dir false t2 = true ->
  guarded_writes dir b (t1 ++ t2) = true.
Proof.
  induction t1 as [|e t1 IH]; intros b t2 H1 H2.
  - by apply guarded_writes_prev.
  - destruct e; simpl in *; try by apply IH.
    apply andb_prop in H1 as [-> H1]. simpl. by apply IH.
Qed.

Lemma guarded_writes_port_events dir b (t : list Event) :
  forallb port_event t = true -> guarded_writes dir b t = true.
Proof.
  revert b. induction t as [|e t IH]; intros b; [done|]. simpl.
  intros [He Ht]%andb_prop. destruct e; try done; by apply IH.
Qed.

Lemma guarded_writes_probe_events dir b (t : list Event) :
  forallb probe_event t = true -> guarded_writes dir b t = true.
Proof.
  revert b. induction t as [|e t IH]; intros b; [done|]. simpl.
  intros [He Ht]%andb_prop. destruct e; try done; by apply IH.
Qed.

(** What [guarded_writes] says of any write in the trace. *)
Lemma guarded_writes_sound dir t : forall b,
  guarded_writes dir b t = true ->
  forall pre path content post,
    t = pre ++ EvWriteFile path content :: post ->
    (pre = [] /\ b = true) \/ exists pre', pre = pre' ++ [EvMkdirAll dir].
Proof.
  induction t as [|e t IH]; intros b Hg pre path content post Heq.
  - by destruct pre.
  - destruct pre as [|e' pre].
    + left. split; [done|]. simpl in Heq. injection Heq as -> _.
      simpl in Hg. by apply andb_prop in Hg as [-> _].
    + right. simpl in Heq. injection Heq as <- Heq.
      assert (exists b', guarded_writes dir b' t = true
                         /\ (b' = true -> e = EvMkdirAll dir)) as (b' & Hg' & Hb').
      { destruct e; simpl in Hg;
          try (exists false; split; [exact Hg|discriminate]).
        - exists (String.eqb dir0 dir). split; [exact Hg|].
          by intros ->%String.eqb_eq.
        - apply andb_prop in Hg as [_ Hg]. exists false. by split. }
      destruct (IH b' Hg' pre path content post Heq)
        as [[-> Hb]|[pre' ->]].
      * exists []. by rewrite (Hb' Hb).
      * by exists (e :: pre').
Qed.

Lemma Run_guards_every_write (E : Env) (d : Deployment) (w : World) :
  guarded_writes (FilepathDosxvpnConfigDir E) false
    (new_events w (snd (Run E d w))) = true.
Proof.
  destruct (Run E d w) as [o p] eqn:H. cbn [fst snd].
  run_all H.
  all: unfold new_events; cbn [world trace]; rewrite drop_app_length.
  all: repeat first
         [ reflexivity
         | progress (cbn [guarded_writes andb]; rewrite ?String.eqb_refl)
         | by apply guarded_writes_port_events
         | by apply guarded_writes_probe_events
         | apply guarded_writes_app;
           [ first [ by apply guarded_writes_port_events
                   | by apply guarded_writes_probe_events ] | ] ].
Qed.

Lemma events_before_app p (t rest : list Event) :
  count p t = O -> events_before p (t ++ rest) = t ++ events_before p rest.
Proof.
  induction t as [|e t IH]; [done|]. rewrite count_cons. simpl.
  destruct (p e); [done|]. intros Ht. by rewrite IH.
Qed.

Lemma events_before_split p (pre post : list Event) (e : Event) :
  p e = true -> count p pre = O -> events_before p (pre ++ e :: post) = pre.
Proof.
  intros He Hpre. rewrite events_before_app by done. simpl. rewrite He.
  apply app_nil_r.
Qed.

Lemma Run_local_apply_after_writes (E : Env) (d : Deployment) (w : World) :
  count is_osxaddvpn (new_events w (snd (Run E d w))) = O
  \/ count is_osxaddvpn (new_events w (snd (Run E d w))) = 1%nat
     /\ count is_write
          (events_before is_osxaddvpn (new_events w (snd (Run E d w)))) = 5%nat
     /\ count is_write (new_events w (snd (Run E d w))) = 5%nat.
Proof.
  destruct (Run E d w) as [o p] eqn:H. cbn [fst snd].
  run_all H.
  all: unfold new_events; cbn [world trace]; rewrite drop_app_length.
  all: repeat first
         [ progress cbn [events_before is_osxaddvpn]
         | rewrite events_before_app
             by (apply count_port_events; [by intros []|done]) ].
  all: repeat first
         [ rewrite count_cons | rewrite count_app | rewrite count_nil ].
  all: repeat match goal with
         | Hp : forallb port_event ?t = true |- _ =>
             rewrite ?(count_port_events is_write t (fun e => ltac:(by destruct e)) Hp),
               ?(count_port_events is_osxaddvpn t (fun e => ltac:(by destruct e)) Hp);
             clear Hp
         | Hp : forallb probe_event ?t = true |- _ =>
             rewrite ?(count_probe_events is_write t (fun e => ltac:(by destruct e)) Hp),
               ?(count_probe_events is_osxaddvpn t (fun e => ltac:(by destruct e)) Hp);
             clear Hp
         end.
  all: cbn [is_write is_osxaddvpn Nat.add].
  all: first [by left | right; by split_and!].
Qed.

Lemma Run_local_apply_split (E : Env) (d : Deployment) (w : World)
    (pre post : list Event) (path : string) :
  new_events w (snd (Run E d w)) = pre ++ EvOSXAddVPN path :: post ->
  count is_write pre = 5%nat /\ count is_write post = O
  /\ count is_osxaddvpn pre = O /\ count is_osxaddvpn post = O.
Proof.
  intros Heq.
  destruct (Run_local_apply_after_writes E d w) as [H0|(H1 & Hbefore & Hall)];
    rewrite Heq in *.
  - rewrite count_app, count_cons in H0. simpl in H0. lia.
  - rewrite count_app, count_cons in H1. cbn [is_osxaddvpn] in H1.
    assert (count is_osxaddvpn pre = O) as Hpre by lia.
    rewrite events_before_split in Hbefore by done.
    rewrite count_app, count_cons in Hall. cbn [is_write] in Hall.
    split_and!; lia.
Qed.

(** X18: however it ends, [Run] writes at most five times and only to the
    five paths of the deployment in the configuration directory (the
    fetched password gets no file of its own); and every write comes
    right after the making of that directory: the event just before a
    write is always [os.MkdirAll] of the configuration directory. *)
Theorem Run_writes_only_the_five_config_files
    (E : Env) (d : Deployment) (w : World) :
  Forall (writes_within (config_paths E (Name d)))
    (new_events w (snd (Run E d w)))
  /\ (count is_write (new_events w (snd (Run E d w))) <= 5)%nat
  /\ count is_mkdirall (new_events w (snd (Run E d w)))
     = count is_write (new_events w (snd (Run E d w)))
  /\ (forall pre path content post,
        new_events w (snd (Run E d w)) = pre ++ EvWriteFile path content :: post ->
        exists pre', pre = pre' ++ [EvMkdirAll (FilepathDosxvpnConfigDir E)]).
Proof.
  destruct (Run_write_targets_and_counts E d w) as (Hin & Hle & Hcount).
  split_and!; [done..|].
  intros pre path content post Heq.
  destruct (guarded_writes_sound _ _ _ (Run_guards_every_write E d w)
              pre path content post Heq) as [[_ [=]]|Hpre].
  exact Hpre.
Qed.

(** X20: [Run] calls the local network-settings mutator at most once, with
    the path of the Apple configuration file and only with [AutoConfigure]
    on; once it has, the run always returns [nil] with the status [done],
    whatever the mutator and the probes that follow answer.  The call
    comes after all five writes: wherever the trace splits around a call
    of the mutator, the five writes are all in the part before it, and
    neither part holds another call. *)
Theorem Run_applies_locally_at_most_once_and_then_completes
    (E : Env) (d : Deployment) (w : World) :
  (List.filter is_osxaddvpn (new_events w (snd (Run E d w))) = []
   \/ List.filter is_osxaddvpn (new_events w (snd (Run E d w)))
        = [EvOSXAddVPN (config_path E FilenameAppleConfig (Name d))]
      /\ AutoConfigure d = true
      /\ count is_write (new_events w (snd (Run E d w))) = 5%nat
      /\ fst (Run E d w) = Returned None
      /\ Status (self (snd (Run E d w))) = "done")
  /\ (forall pre path post,
        new_events w (snd (Run E d w)) = pre ++ EvOSXAddVPN path :: post ->
        count is_write pre = 5%nat /\ count is_write post = O
        /\ count is_osxaddvpn pre = O /\ count is_osxaddvpn post = O).
Proof.
  split.
  - apply Run_local_apply_cases.
  - intros pre path post. apply Run_local_apply_split.
Qed.

(** With [AutoConfigure] off, any run that returns [nil] ends with the
    status [waiting for ssh]: that is the only value it assigns. *)
Lemma Run_without_autoConfigure_stays_waiting_for_ssh
    (E : Env) (d : Deployment) (w : World) :
  AutoConfigure d = false ->
  fst (Run E d w) = Returned None ->
  Status (self (snd (Run E d w))) = "waiting for ssh"
  /\ statuses (new_events w (snd (Run E d w))) = ["waiting for ssh"].
Proof.
  intros Hauto.
  destruct (Run E d w) as [o p] eqn:H. cbn [fst snd].
  run_all H.
  all: intros [=]; try congruence.
  all: unfold new_events; cbn [world trace]; rewrite drop_app_length.
  all: trace_norm.
  all: by split.
Qed.
